(** * learning-three-js-ts-vite: the sidebar data and the 3D viewer components

    A shallow embedding of
      - [src/utils/dashboardSidebarData.ts]: the [SidebarItem] interface and
        the [SidebarItemsData] literal, and the [LoadingMultipleAssets]
        component that the same file carries;
      - [src/components/Dashboard/LoadingAssets/LoadingAssets.tsx].

    The browser and the rendering library are modelled only as far as the
    components call into them: animation-frame handles, the resize listener,
    the two container [div]s behind the refs, the console, and the fields of
    the three.js objects that the components read or write. *)

From Stdlib Require Import List ZArith QArith String Bool Lia Permutation.
From Stdlib Require Import DecimalString.
Import ListNotations.
#[local] Set Warnings "-register-all".
Open Scope string_scope.
Open Scope list_scope.
Open Scope Z_scope.

(* ===================================================================== *)
(** ** The sidebar navigation tree *)
(* ===================================================================== *)

Module Sidebar.

(** The icon components imported from react-icons; only their identity is
    used (the data holds component references, not JSX). *)
Inductive IconType : Type :=
  | AiOutlineTransaction
  | MdOutlineCategory
  | MdOutlineDashboard
  | PiStudentBold.

(** The values that occur in the [SidebarItemsData] literal. An object keeps
    its properties in the order the literal writes them. *)
Inductive JsValue : Type :=
  | JNum (n : Z)
  | JStr (s : string)
  | JIcon (i : IconType)
  | JArr (items : list JsValue)
  | JObj (props : list (string * JsValue)).

(** [interface SidebarItem] as a record. *)
Inductive SidebarItem : Type :=
  mkSidebarItem {
    id : Z;
    name : string;
    module_id : Z;
    path : string;
    Icon : IconType;
    sub : option (list SidebarItem)
  }.

(** [interface SidebarItem] as the list of its property signatures:
    property name and whether it is optional ([sub?]). *)
Definition SidebarItem_signature : list (string * bool) :=
  [ ("id", false); ("name", false); ("module_id", false);
    ("path", false); ("Icon", false); ("sub", true) ].

(** The literal exported as [SidebarItemsData], property by property. *)
Definition SidebarItemsLiteral : JsValue :=
  JArr [
    JObj [ ("id", JNum 1); ("name", JStr "Dashboard"); ("module_id", JNum 1);
           ("path", JStr "/"); ("Icon", JIcon MdOutlineDashboard) ];
    JObj [ ("id", JNum 2); ("name", JStr "Three Js"); ("module_id", JNum 1);
           ("path", JStr ""); ("Icon", JIcon MdOutlineCategory);
           ("sub", JArr [
              JObj [ ("id", JNum 21); ("name", JStr "Geometries");
                     ("path", JStr ""); ("module_id", JNum 1);
                     ("Icon", JIcon AiOutlineTransaction);
                     ("sub", JArr [
                        JObj [ ("id", JNum 211);
                               ("name", JStr "Active Geometries");
                               ("path", JStr "/dashboard/geometries");
                               ("module_id", JNum 1);
                               ("Icon", JIcon AiOutlineTransaction) ];
                        JObj [ ("id", JNum 212);
                               ("name", JStr "Active Camera");
                               ("path", JStr "/dashboard/camera");
                               ("module_id", JNum 1);
                               ("Icon", JIcon AiOutlineTransaction) ] ]) ];
              JObj [ ("id", JNum 22); ("name", JStr "Materials");
                     ("path", JStr ""); ("module_id", JNum 1);
                     ("Icon", JIcon AiOutlineTransaction);
                     ("sub", JArr [
                        JObj [ ("id", JNum 221);
                               ("name", JStr "All Materials");
                               ("path", JStr "/dashboard/materials");
                               ("module_id", JNum 1);
                               ("Icon", JIcon AiOutlineTransaction) ];
                        JObj [ ("id", JNum 222);
                               ("name", JStr "Common Materials");
                               ("path", JStr "/dashboard/common-materials");
                               ("module_id", JNum 1);
                               ("Icon", JIcon AiOutlineTransaction) ] ]) ] ]) ];
    JObj [ ("id", JNum 3); ("name", JStr "Threejs Loading");
           ("module_id", JNum 1); ("path", JStr "");
           ("Icon", JIcon AiOutlineTransaction);
           ("sub", JArr [
              JObj [ ("id", JNum 223);
                     ("name", JStr "Loading Multiple Assets");
                     ("path", JStr "/dashboard/loading-multiple-assets");
                     ("module_id", JNum 1);
                     ("Icon", JIcon AiOutlineTransaction) ];
              JObj [ ("id", JNum 32); ("name", JStr "Loading");
                     ("path", JStr ""); ("module_id", JNum 1);
                     ("Icon", JIcon AiOutlineTransaction);
                     ("sub", JArr [
                        JObj [ ("id", JNum 321);
                               ("name", JStr "Loading Multiple ");
                               ("path", JStr "/dashboard/loading-assets");
                               ("module_id", JNum 1);
                               ("Icon", JIcon AiOutlineTransaction) ];
                        JObj [ ("id", JNum 322);
                               ("name", JStr "Branch Settings");
                               ("path", JStr "/branches/manage/settings");
                               ("module_id", JNum 1);
                               ("Icon", JIcon AiOutlineTransaction) ] ]) ] ]) ];
    JObj [ ("id", JNum 5); ("name", JStr "Geofences"); ("module_id", JNum 1);
           ("path", JStr "/geofences/all-geofences");
           ("Icon", JIcon PiStudentBold) ];
    JObj [ ("id", JNum 9); ("name", JStr "Groups"); ("module_id", JNum 1);
           ("path", JStr "/groups/all-groups");
           ("Icon", JIcon PiStudentBold) ] ].

(** Property lookup on an object literal (first occurrence of the key). *)
Fixpoint get (k : string) (props : list (string * JsValue)) : option JsValue :=
  match props with
  | [] => None
  | (k', v) :: rest => if String.eqb k k' then Some v else get k rest
  end.

(** Own property names of an object, in literal order. *)
Definition keys (props : list (string * JsValue)) : list string :=
  map fst props.

(** Reading a value at type [SidebarItem]: the five required properties at
    their declared types, [sub] either absent or an array of items. *)
Fixpoint as_SidebarItem (v : JsValue) : option SidebarItem :=
  match v with
  | JObj props =>
      let children :=
        (fix find (ps : list (string * JsValue))
           : option (option (list SidebarItem)) :=
           match ps with
           | [] => Some None
           | (k, x) :: rest =>
               if String.eqb k "sub" then
                 match x with
                 | JArr items =>
                     option_map Some
                       ((fix each (l : list JsValue)
                           : option (list SidebarItem) :=
                           match l with
                           | [] => Some []
                           | i :: l' =>
                               match as_SidebarItem i, each l' with
                               | Some a, Some b => Some (a :: b)
                               | _, _ => None
                               end
                           end) items)
                 | _ => None
                 end
               else find rest
           end) props in
      match get "id" props, get "name" props, get "module_id" props,
            get "path" props, get "Icon" props, children with
      | Some (JNum i), Some (JStr n), Some (JNum m),
        Some (JStr p), Some (JIcon ic), Some s =>
          Some (mkSidebarItem i n m p ic s)
      | _, _, _, _, _, _ => None
      end
  | _ => None
  end.

Fixpoint as_SidebarItems (l : list JsValue) : option (list SidebarItem) :=
  match l with
  | [] => Some []
  | i :: l' =>
      match as_SidebarItem i, as_SidebarItems l' with
      | Some a, Some b => Some (a :: b)
      | _, _ => None
      end
  end.

(** [export const SidebarItemsData: SidebarItem[]]: the literal read at its
    declared type. *)
Definition SidebarItemsData : list SidebarItem :=
  Eval cbv in
    match SidebarItemsLiteral with
    | JArr l => match as_SidebarItems l with Some d => d | None => [] end
    | _ => []
    end.

(** A node and everything below it, in document order. *)
Fixpoint nodes (it : SidebarItem) : list SidebarItem :=
  it :: match sub it with
        | Some l => flat_map nodes l
        | None => []
        end.

Definition all_nodes (items : list SidebarItem) : list SidebarItem :=
  flat_map nodes items.

(** The object literals of a value, at every depth. *)
Fixpoint objects (v : JsValue) : list (list (string * JsValue)) :=
  match v with
  | JArr items => flat_map objects items
  | JObj props => props :: flat_map (fun kv => objects (snd kv)) props
  | _ => []
  end.

(** The fields the spec's data model names for a node. *)
Definition spec_fields : list string :=
  [ "id"; "name"; "path"; "Icon"; "sub" ].

(** A node as the spec's data model describes it: no key besides id, name,
    path, Icon and sub. *)
Definition only_spec_fields (o : list (string * JsValue)) : Prop :=
  incl (keys o) spec_fields.

(** The required property names of [interface SidebarItem]. *)
Definition required_fields : list string :=
  List.map fst (filter (fun p => negb (snd p)) SidebarItem_signature).

(** All property names of [interface SidebarItem]. *)
Definition declared_fields : list string :=
  List.map fst SidebarItem_signature.

(** Every key of [l] occurs in [m]. *)
Definition covers (l m : list string) : bool :=
  forallb (fun k => existsb (String.eqb k) m) l.

(** No key occurs twice. *)
Fixpoint distinct (l : list string) : bool :=
  match l with
  | [] => true
  | k :: r => negb (existsb (String.eqb k) r) && distinct r
  end.

End Sidebar.

(* ===================================================================== *)
(** ** The parts of three.js the components touch *)
(* ===================================================================== *)

Module Three.

(** JavaScript numbers that are written as decimal literals are kept as the
    fractions the literals denote; the components only copy and compare
    them. *)
Definition number : Type := Q.
Bind Scope Q_scope with number.

Record Vector3 : Type := vec3 { x : number; y : number; z : number }.

Definition origin : Vector3 := vec3 0 0 0.

(** Angles are kept as multiples of [Math.PI]. *)
Inductive Angle : Type :=
  | PiTimes (k : number).

Definition Math_PI : Angle := PiTimes 1.

(** What was done to an object's orientation, oldest first. *)
Inductive Turn : Type :=
  | rotateY_by (a : Angle)       (* object.rotateY(a) *)
  | rotation_x_set (a : Angle).  (* object.rotation.x = a *)

Inductive Mapping : Type :=
  | UVMapping
  | EquirectangularReflectionMapping.

Inductive ToneMapping : Type :=
  | NoToneMapping
  | ACESFilmicToneMapping.

Record Texture : Type := mkTexture {
  image : string;
  mapping : Mapping;
  blurriness : option number;
  texture_disposed : bool
}.

Inductive Background : Type :=
  | NoBackground
  | TextureBackground (t : Texture)
  | ColorBackground (hex : Z).

Record MeshStandardMaterial : Type := mkMaterial {
  color : Z;
  roughness : number;
  metalness : number;
  map : option Texture;
  needsUpdate : bool;
  material_disposed : bool
}.

(** [new THREE.MeshStandardMaterial()] with the library's defaults. *)
Definition MeshStandardMaterial_new : MeshStandardMaterial :=
  mkMaterial 0xffffff 1 0 None false false.

(** A mesh either carries a material of its own or points at the one
    [material] object that [LoadingAssets] shares between its meshes. *)
Inductive MaterialRef : Type :=
  | OwnMaterial (m : MeshStandardMaterial)
  | SharedMaterial.

Inductive Geometry : Type :=
  | BoxGeometry (width height depth : number)
  | PlaneGeometry (width height : number)
  | LoadedGeometry (label : string).

Inductive Kind : Type :=
  | AmbientLight (color : Z) (intensity : number)
  | DirectionalLight (color : Z) (intensity : number)
  | GridHelper (size divisions : Z)
  | Mesh (geometry : Geometry) (material : MaterialRef)
  | Group.

(** [THREE.Object3D]: every object has a position, an orientation and
    children, whatever its kind. *)
Inductive Object3D : Type :=
  mkObject3D {
    kind : Kind;
    position : Vector3;
    turns : list Turn;
    children : list Object3D
  }.

Definition Object3D_new (k : Kind) : Object3D := mkObject3D k origin [] [].

Definition position_set (px py pz : number) (o : Object3D) : Object3D :=
  mkObject3D (kind o) (vec3 px py pz) (turns o) (children o).

Definition position_y_set (py : number) (o : Object3D) : Object3D :=
  mkObject3D (kind o) (vec3 (x (position o)) py (z (position o)))
             (turns o) (children o).

Definition rotateY (a : Angle) (o : Object3D) : Object3D :=
  mkObject3D (kind o) (position o) (turns o ++ [rotateY_by a]) (children o).

Definition rotation_x (a : Angle) (o : Object3D) : Object3D :=
  mkObject3D (kind o) (position o) (turns o ++ [rotation_x_set a])
             (children o).

(** What a GLTF load hands to its success callback. *)
Record GLTF : Type := mkGLTF { gltf_scene : Object3D }.

Record Scene : Type := mkScene {
  scene_children : list Object3D;
  environment : option Texture;
  background : Background
}.

Definition Scene_new : Scene := mkScene [] None NoBackground.

Definition scene_add (o : Object3D) (s : Scene) : Scene :=
  mkScene (scene_children s ++ [o]) (environment s) (background s).

(** [a / b] as written, not evaluated. *)
Record Ratio : Type := ratio { numerator : Z; denominator : Z }.

Record PerspectiveCamera : Type := mkCamera {
  fov : number;
  aspect : Ratio;
  near : number;
  far : number;
  camera_position : Vector3;
  projection_updates : nat
}.

(** [new THREE.PerspectiveCamera(fov, aspect, near, far)]; the constructor
    calls [updateProjectionMatrix()] once. *)
Definition PerspectiveCamera_new (f : number) (a : Ratio) (n fa : number)
  : PerspectiveCamera :=
  mkCamera f a n fa origin 1.

Record WebGLRenderer : Type := mkRenderer {
  antialias : bool;
  alpha : bool;
  clearColor : Z;
  clearAlpha : number;
  toneMapping : ToneMapping;
  size : Z * Z;
  pixelRatio : number;
  frames_rendered : nat;
  renderer_disposed : bool
}.

Definition WebGLRenderer_new (aa al : bool) : WebGLRenderer :=
  mkRenderer aa al 0 0 NoToneMapping (300, 150) 1 0%nat false.

Definition render (r : WebGLRenderer) : WebGLRenderer :=
  mkRenderer (antialias r) (alpha r) (clearColor r) (clearAlpha r)
             (toneMapping r) (size r) (pixelRatio r)
             (S (frames_rendered r)) (renderer_disposed r).

Definition setSize (w h : Z) (r : WebGLRenderer) : WebGLRenderer :=
  mkRenderer (antialias r) (alpha r) (clearColor r) (clearAlpha r)
             (toneMapping r) (w, h) (pixelRatio r)
             (frames_rendered r) (renderer_disposed r).

Definition renderer_dispose (r : WebGLRenderer) : WebGLRenderer :=
  mkRenderer (antialias r) (alpha r) (clearColor r) (clearAlpha r)
             (toneMapping r) (size r) (pixelRatio r)
             (frames_rendered r) true.

Record OrbitControls : Type := mkControls {
  target_y : number;
  enableDamping : bool;
  control_updates : nat;
  controls_disposed : bool
}.

(** [new OrbitControls(camera, domElement)]; the constructor ends with a
    call of its own [update()]. *)
Definition OrbitControls_new : OrbitControls := mkControls 0 false 1 false.

Definition controls_update (c : OrbitControls) : OrbitControls :=
  mkControls (target_y c) (enableDamping c) (S (control_updates c))
             (controls_disposed c).

Definition controls_dispose (c : OrbitControls) : OrbitControls :=
  mkControls (target_y c) (enableDamping c) (control_updates c) true.

Record Stats : Type := mkStats { stats_updates : nat }.

Definition stats_update (s : Stats) : Stats := mkStats (S (stats_updates s)).

Inductive Loader : Type :=
  | HDRLoader
  | TextureLoader
  | GLTFLoader.

(** What a loader delivers on success. *)
Inductive Asset : Type :=
  | TextureAsset (t : Texture)
  | GltfAsset (g : GLTF).

End Three.

(* ===================================================================== *)
(** ** The browser as the components see it *)
(* ===================================================================== *)

Module Host.

(** The value a loader passes to an error callback ([error: unknown]). *)
Definition ErrorValue : Type := string.

Inductive Level : Type :=
  | LogLevel         (* console.log *)
  | ErrorLevel       (* console.error *)
  | UncaughtLevel.   (* the browser's report of an uncaught exception *)

Record ConsoleLine : Type := line {
  level : Level;
  text : string;
  detail : option ErrorValue
}.

(** [ref.current]: [null], or the [div] the JSX attaches the ref to. *)
Inductive RefValue : Type :=
  | Null
  | Current.

Inductive DomNode : Type :=
  | RendererDomElement   (* renderer.domElement *)
  | StatsDom             (* stats.dom *)
  | Leftover (n : nat).  (* whatever the container held before *)

Definition DomNode_eqb (a b : DomNode) : bool :=
  match a, b with
  | RendererDomElement, RendererDomElement => true
  | StatsDom, StatsDom => true
  | Leftover n, Leftover m => Nat.eqb n m
  | _, _ => false
  end.

Record Host : Type := mkHost {
  (* requestAnimationFrame: the handle counter and the handles of the
     requests of this component that have not run and were not cancelled *)
  raf_counter : Z;
  raf_pending : list Z;
  (* whether handleResize is registered for "resize" on window *)
  resize_listener : bool;
  mountRef_current : RefValue;
  statsRef_current : RefValue;
  (* children of the two container divs *)
  mount_children : list DomNode;
  stats_children : list DomNode;
  innerWidth : Z;
  innerHeight : Z;
  clientWidth : Z;      (* of the mount div *)
  clientHeight : Z;
  devicePixelRatio : Three.number;
  console : list ConsoleLine
}.

Definition with_raf (c : Z) (p : list Z) (h : Host) : Host :=
  mkHost c p (resize_listener h) (mountRef_current h) (statsRef_current h)
         (mount_children h) (stats_children h) (innerWidth h) (innerHeight h)
         (clientWidth h) (clientHeight h) (devicePixelRatio h) (console h).

Definition with_resize_listener (b : bool) (h : Host) : Host :=
  mkHost (raf_counter h) (raf_pending h) b (mountRef_current h)
         (statsRef_current h) (mount_children h) (stats_children h)
         (innerWidth h) (innerHeight h) (clientWidth h) (clientHeight h)
         (devicePixelRatio h) (console h).

Definition with_refs (m s : RefValue) (h : Host) : Host :=
  mkHost (raf_counter h) (raf_pending h) (resize_listener h) m s
         (mount_children h) (stats_children h) (innerWidth h) (innerHeight h)
         (clientWidth h) (clientHeight h) (devicePixelRatio h) (console h).

Definition with_mount_children (l : list DomNode) (h : Host) : Host :=
  mkHost (raf_counter h) (raf_pending h) (resize_listener h)
         (mountRef_current h) (statsRef_current h) l (stats_children h)
         (innerWidth h) (innerHeight h) (clientWidth h) (clientHeight h)
         (devicePixelRatio h) (console h).

Definition with_stats_children (l : list DomNode) (h : Host) : Host :=
  mkHost (raf_counter h) (raf_pending h) (resize_listener h)
         (mountRef_current h) (statsRef_current h) (mount_children h) l
         (innerWidth h) (innerHeight h) (clientWidth h) (clientHeight h)
         (devicePixelRatio h) (console h).

Definition with_window (iw ih cw ch : Z) (h : Host) : Host :=
  mkHost (raf_counter h) (raf_pending h) (resize_listener h)
         (mountRef_current h) (statsRef_current h) (mount_children h)
         (stats_children h) iw ih cw ch (devicePixelRatio h) (console h).

Definition with_console (c : list ConsoleLine) (h : Host) : Host :=
  mkHost (raf_counter h) (raf_pending h) (resize_listener h)
         (mountRef_current h) (statsRef_current h) (mount_children h)
         (stats_children h) (innerWidth h) (innerHeight h) (clientWidth h)
         (clientHeight h) (devicePixelRatio h) c.

(** [console.log(text)] and [console.error(text, error)]. *)
Definition console_log (t : string) (h : Host) : Host :=
  with_console (console h ++ [line LogLevel t None]) h.

Definition console_error (t : string) (e : ErrorValue) (h : Host) : Host :=
  with_console (console h ++ [line ErrorLevel t (Some e)]) h.

(** An exception that leaves an event listener is caught by no one: the
    browser reports it on the console and goes on. Only the kind of the
    error is kept, the wording of the report is the browser's. *)
Definition report_uncaught (kind : string) (h : Host) : Host :=
  with_console (console h ++ [line UncaughtLevel kind None]) h.

(** [requestAnimationFrame]: the next handle, and the request recorded. *)
Definition requestAnimationFrame (h : Host) : Z * Host :=
  let handle := raf_counter h + 1 in
  (handle, with_raf handle (raf_pending h ++ [handle]) h).

Definition cancelAnimationFrame (handle : Z) (h : Host) : Host :=
  with_raf (raf_counter h)
           (filter (fun k => negb (k =? handle)) (raf_pending h)) h.

(** [parent.contains(node)] for a node that can only be a direct child. *)
Definition contains (l : list DomNode) (n : DomNode) : bool :=
  existsb (DomNode_eqb n) l.

Definition removeChild (n : DomNode) (l : list DomNode) : list DomNode :=
  filter (fun k => negb (DomNode_eqb n k)) l.

(** Truthiness of a number that is not NaN. *)
Definition truthy (n : Z) : bool := negb (n =? 0).

(** A template literal's rendering of a natural number. *)
Definition decimal (n : nat) : string :=
  NilZero.string_of_uint (Nat.to_uint n).

(** A page on which the component has no frame request yet. Browsers hand
    out handles by incrementing a counter that starts at zero, so every
    handle is positive. *)
Definition host_ok (h : Host) : Prop :=
  raf_pending h = [] /\ 0 <= raf_counter h.

End Host.

(* ===================================================================== *)
(** ** [LoadingMultipleAssets] *)
(* ===================================================================== *)

Module LoadingMultipleAssets.
Import Three Host.

Module Wheel.
(** An entry of [wheelPositions]. *)
Record Position : Type := at_ { x : number; y : number; z : number;
                                rotate : bool }.
End Wheel.

(** The callbacks the effect hands to the loaders. A wheel callback closes
    over its [pos] and [index]. *)
Inductive OnLoad : Type :=
  | hdr_loaded
  | body_loaded
  | wheel_loaded (pos : Wheel.Position) (index : nat).

Inductive OnError : Type :=
  | hdr_failed
  | body_failed
  | wheel_failed (index : nat).

(** One [loader.load(url, onLoad, onProgress, onError)] call; an argument
    that is [undefined] is [None]. *)
Record LoadCall : Type := load {
  loader : Loader;
  url : string;
  onLoad : option OnLoad;
  onProgress : option unit;
  onError : option OnError
}.

(** The component instance: the page, the two [useState] cells, and the
    variables of the mount effect's closure. *)
Record World : Type := mkWorld {
  host : Host;
  loading : bool;
  error : option string;
  scene : Scene;
  camera : PerspectiveCamera;
  renderer : WebGLRenderer;
  controls : OrbitControls;
  stats : Stats;
  modelsLoaded : Z;
  animationFrameId : option Z;   (* [None]: still undefined *)
  calls : list LoadCall          (* the load calls issued, in order *)
}.

Definition with_host (h : Host) (w : World) : World :=
  mkWorld h (loading w) (error w) (scene w) (camera w) (renderer w)
          (controls w) (stats w) (modelsLoaded w) (animationFrameId w)
          (calls w).

Definition setLoading (b : bool) (w : World) : World :=
  mkWorld (host w) b (error w) (scene w) (camera w) (renderer w)
          (controls w) (stats w) (modelsLoaded w) (animationFrameId w)
          (calls w).

Definition setError (m : string) (w : World) : World :=
  mkWorld (host w) (loading w) (Some m) (scene w) (camera w) (renderer w)
          (controls w) (stats w) (modelsLoaded w) (animationFrameId w)
          (calls w).

Definition with_scene (s : Scene) (w : World) : World :=
  mkWorld (host w) (loading w) (error w) s (camera w) (renderer w)
          (controls w) (stats w) (modelsLoaded w) (animationFrameId w)
          (calls w).

Definition with_camera (c : PerspectiveCamera) (w : World) : World :=
  mkWorld (host w) (loading w) (error w) (scene w) c (renderer w)
          (controls w) (stats w) (modelsLoaded w) (animationFrameId w)
          (calls w).

Definition with_renderer (r : WebGLRenderer) (w : World) : World :=
  mkWorld (host w) (loading w) (error w) (scene w) (camera w) r
          (controls w) (stats w) (modelsLoaded w) (animationFrameId w)
          (calls w).

Definition with_controls (c : OrbitControls) (w : World) : World :=
  mkWorld (host w) (loading w) (error w) (scene w) (camera w) (renderer w)
          c (stats w) (modelsLoaded w) (animationFrameId w) (calls w).

Definition with_stats (s : Stats) (w : World) : World :=
  mkWorld (host w) (loading w) (error w) (scene w) (camera w) (renderer w)
          (controls w) s (modelsLoaded w) (animationFrameId w) (calls w).

Definition with_modelsLoaded (n : Z) (w : World) : World :=
  mkWorld (host w) (loading w) (error w) (scene w) (camera w) (renderer w)
          (controls w) (stats w) n (animationFrameId w) (calls w).

Definition with_animationFrameId (i : option Z) (w : World) : World :=
  mkWorld (host w) (loading w) (error w) (scene w) (camera w) (renderer w)
          (controls w) (stats w) (modelsLoaded w) i (calls w).

Definition totalModels : Z := 5.

Definition wheelPositions : list Wheel.Position :=
  [ Wheel.at_ (-0.65) 0.2 (-0.77) false;
    Wheel.at_ 0.65 0.2 (-0.77) true;
    Wheel.at_ (-0.65) 0.2 0.57 false;
    Wheel.at_ 0.65 0.2 0.57 true ].

(** [modelsLoaded++; if (modelsLoaded === totalModels) setLoading(false);] *)
Definition model_settled (w : World) : World :=
  let w := with_modelsLoaded (modelsLoaded w + 1) w in
  if modelsLoaded w =? totalModels then setLoading false w else w.

(** *** The HDR environment callbacks *)

Definition hdr_onLoad (texture : Texture) (w : World) : World :=
  let texture :=
    mkTexture (image texture) EquirectangularReflectionMapping
              (blurriness texture) (texture_disposed texture) in
  let w := with_scene (mkScene (scene_children (scene w)) (Some texture)
                               (background (scene w))) w in
  let w := with_scene (mkScene (scene_children (scene w))
                               (environment (scene w))
                               (TextureBackground texture)) w in
  (* [scene.background] and [scene.environment] are the same texture
     object, so the write through [scene.background] shows in both *)
  let texture :=
    mkTexture (image texture) (mapping texture) (Some 1.0%Q)
              (texture_disposed texture) in
  let w := with_scene (mkScene (scene_children (scene w)) (Some texture)
                               (TextureBackground texture)) w in
  with_host (console_log "HDR loaded successfully" (host w)) w.

Definition hdr_onError (e : ErrorValue) (w : World) : World :=
  let w := with_host (console_error "Error loading HDR:" e (host w)) w in
  let w := setError "Failed to load HDR environment. Using fallback." w in
  with_scene (mkScene (scene_children (scene w)) (environment (scene w))
                      (ColorBackground 0x87ceeb)) w.

(** *** The model callbacks *)

Definition createFallbackModel (w : World) : World :=
  let geometry := BoxGeometry 1 1 1 in
  let material := mkMaterial 0xff0000 0.7 0.3 None false false in
  let cube := Object3D_new (Mesh geometry (OwnMaterial material)) in
  let cube := position_y_set 0.5 cube in
  let w := with_scene (scene_add cube (scene w)) w in
  with_host (console_log "Created fallback cube" (host w)) w.

Definition body_onLoad (gltf : GLTF) (w : World) : World :=
  let w := with_host (console_log "SUV body loaded" (host w)) w in
  let w := with_scene (scene_add (gltf_scene gltf) (scene w)) w in
  model_settled w.

Definition body_onError (e : ErrorValue) (w : World) : World :=
  let w := with_host (console_error "Error loading SUV body:" e (host w)) w in
  let w := setError "Failed to load SUV model. Using fallback." w in
  let w := createFallbackModel w in
  model_settled w.

Definition wheel_onLoad (pos : Wheel.Position) (index : nat) (gltf : GLTF)
    (w : World) : World :=
  let w := with_host
             (console_log
                ("Wheel " ++ decimal (index + 1) ++ " loaded")%string
                (host w)) w in
  let model := position_set (Wheel.x pos) (Wheel.y pos) (Wheel.z pos)
                            (gltf_scene gltf) in
  let model := if Wheel.rotate pos then rotateY Math_PI model else model in
  let w := with_scene (scene_add model (scene w)) w in
  model_settled w.

Definition wheel_onError (index : nat) (e : ErrorValue) (w : World) : World :=
  let w := with_host
             (console_error
                ("Error loading wheel " ++ decimal (index + 1) ++ ":")%string e
                (host w)) w in
  model_settled w.

(** *** Resize, the render loop, mount and cleanup *)

Definition handleResize (w : World) : World :=
  let h := host w in
  let c := camera w in
  let w := with_camera
             (mkCamera (fov c) (ratio (innerWidth h) (innerHeight h))
                       (near c) (far c) (camera_position c)
                       (S (projection_updates c))) w in
  with_renderer (setSize (innerWidth h) (innerHeight h) (renderer w)) w.

Definition animate (w : World) : World :=
  let (handle, h) := requestAnimationFrame (host w) in
  let w := with_animationFrameId (Some handle) (with_host h w) in
  let w := with_controls (controls_update (controls w)) w in
  let w := with_renderer (render (renderer w)) w in
  with_stats (stats_update (stats w)) w.

(** The wheel load calls, one per entry of [wheelPositions]
    ([wheelPositions.forEach((pos, index) => loader.load(...))]). *)
Fixpoint wheel_calls (index : nat) (l : list Wheel.Position) : list LoadCall :=
  match l with
  | [] => []
  | pos :: rest =>
      load GLTFLoader "/models/suv_wheel.glb"
           (Some (wheel_loaded pos index)) None (Some (wheel_failed index))
        :: wheel_calls (S index) rest
  end.

(** The body of the mount effect, run with the initial [useState] values
    ([loading = true], [error = null]). [None]: the effect returned early
    and registered no cleanup. *)
Definition effect (h : Host) : option World :=
  match mountRef_current h, statsRef_current h with
  | Current, Current =>
      (* clear containers *)
      let h := with_mount_children [] h in
      let h := with_stats_children [] h in
      let scene := Scene_new in
      let camera :=
        PerspectiveCamera_new 75 (ratio (innerWidth h) (innerHeight h))
                              0.1 100 in
      let camera :=
        mkCamera (fov camera) (aspect camera) (near camera) (far camera)
                 (vec3 2 1 (-2)) (projection_updates camera) in
      let renderer := WebGLRenderer_new true true in
      let renderer :=
        mkRenderer (antialias renderer) (alpha renderer) 0x000000 1
                   ACESFilmicToneMapping (size renderer)
                   (pixelRatio renderer) (frames_rendered renderer)
                   (renderer_disposed renderer) in
      let renderer := setSize (innerWidth h) (innerHeight h) renderer in
      let renderer :=
        mkRenderer (antialias renderer) (alpha renderer)
                   (clearColor renderer) (clearAlpha renderer)
                   (toneMapping renderer) (size renderer)
                   (devicePixelRatio h) (frames_rendered renderer)
                   (renderer_disposed renderer) in
      let h := with_mount_children (mount_children h ++ [RendererDomElement])
                                   h in
      let h := with_resize_listener true h in
      let controls := OrbitControls_new in
      let controls := mkControls 0.75 true (control_updates controls)
                                 (controls_disposed controls) in
      let ambientLight := Object3D_new (AmbientLight 0xffffff 0.5) in
      let scene := scene_add ambientLight scene in
      let directionalLight :=
        Object3D_new (DirectionalLight 0xffffff 0.8) in
      let directionalLight := position_set 5 10 7 directionalLight in
      let scene := scene_add directionalLight scene in
      let modelsLoaded := 0 in
      let calls :=
        [ load HDRLoader "/img/venice_sunset_1k.hdr"
               (Some hdr_loaded) None (Some hdr_failed) ] in
      let calls :=
        calls ++ [ load GLTFLoader "/models/suv_body.glb"
                        (Some body_loaded) None (Some body_failed) ] in
      let calls := calls ++ wheel_calls 0 wheelPositions in
      let gridHelper := Object3D_new (GridHelper 10 10) in
      let gridHelper := position_y_set (-0.5) gridHelper in
      let scene := scene_add gridHelper scene in
      let stats := mkStats 0%nat in
      let h := with_stats_children (stats_children h ++ [StatsDom]) h in
      let w := mkWorld h true None scene camera renderer controls stats
                       modelsLoaded None calls in
      Some (animate w)
  | _, _ => None
  end.

(** The cleanup, block by block.
    [window.removeEventListener("resize", handleResize)] *)
Definition stop_listening (w : World) : World :=
  with_host (with_resize_listener false (host w)) w.

(** [if (animationFrameId) cancelAnimationFrame(animationFrameId)] *)
Definition cancel_frame (w : World) : World :=
  match animationFrameId w with
  | Some handle =>
      if truthy handle
      then with_host (cancelAnimationFrame handle (host w)) w
      else w
  | None => w
  end.

(** Remove renderer: only through a ref that is still set. *)
Definition remove_renderer (w : World) : World :=
  match mountRef_current (host w) with
  | Current =>
      if contains (mount_children (host w)) RendererDomElement
      then with_host
             (with_mount_children
                (removeChild RendererDomElement (mount_children (host w)))
                (host w)) w
      else w
  | Null => w
  end.

(** Remove stats: only through a ref that is still set. *)
Definition remove_stats (w : World) : World :=
  match statsRef_current (host w) with
  | Current =>
      if contains (stats_children (host w)) StatsDom
      then with_host
             (with_stats_children
                (removeChild StatsDom (stats_children (host w)))
                (host w)) w
      else w
  | Null => w
  end.

(** Dispose Three.js resources *)
Definition dispose_resources (w : World) : World :=
  let w := with_renderer (renderer_dispose (renderer w)) w in
  with_controls (controls_dispose (controls w)) w.

(** The function the effect returns. *)
Definition cleanup (w : World) : World :=
  let w := stop_listening w in
  let w := cancel_frame w in
  let w := remove_renderer w in
  let w := remove_stats w in
  dispose_resources w.

(** *** What can happen to a mounted instance *)

Inductive Event : Type :=
  | AnimationFrame                         (* the browser runs a frame *)
  | WindowResize (iw ih cw ch : Z)         (* the window gets a new size *)
  | LoadSucceeded (call : nat) (a : Asset) (* the call-th load delivers *)
  | LoadFailed (call : nat) (e : ErrorValue)
  | RefsDetached                           (* React clears both refs *)
  | Unmount.                               (* React runs the cleanup *)

Definition invoke_onLoad (cb : OnLoad) (a : Asset) (w : World) : World :=
  match cb, a with
  | hdr_loaded, TextureAsset t => hdr_onLoad t w
  | body_loaded, GltfAsset g => body_onLoad g w
  | wheel_loaded pos index, GltfAsset g => wheel_onLoad pos index g w
  | _, _ => w
  end.

Definition invoke_onError (cb : OnError) (e : ErrorValue) (w : World)
  : World :=
  match cb with
  | hdr_failed => hdr_onError e w
  | body_failed => body_onError e w
  | wheel_failed index => wheel_onError index e w
  end.

(** One frame: every request that is pending when the frame starts and is
    still pending when its turn comes is removed and its callback
    ([animate]) runs. *)
Definition run_frame (w : World) : World :=
  fold_left
    (fun w handle =>
       if existsb (Z.eqb handle) (raf_pending (host w))
       then animate (with_host (cancelAnimationFrame handle (host w)) w)
       else w)
    (raf_pending (host w)) w.

Definition step (ev : Event) (w : World) : World :=
  match ev with
  | AnimationFrame => run_frame w
  | WindowResize iw ih cw ch =>
      let w := with_host (with_window iw ih cw ch (host w)) w in
      if resize_listener (host w) then handleResize w else w
  | LoadSucceeded call a =>
      match nth_error (calls w) call with
      | Some c =>
          match onLoad c with
          | Some cb => invoke_onLoad cb a w
          | None => w
          end
      | None => w
      end
  | LoadFailed call e =>
      match nth_error (calls w) call with
      | Some c =>
          match onError c with
          | Some cb => invoke_onError cb e w
          | None => w
          end
      | None => w
      end
  | RefsDetached => with_host (with_refs Null Null (host w)) w
  | Unmount => cleanup w
  end.

Definition run (evs : list Event) (w : World) : World :=
  fold_left (fun w ev => step ev w) evs w.

(** *** Reading traces *)

Definition is_frame (ev : Event) : bool :=
  match ev with AnimationFrame => true | _ => false end.

(** The number of frames the browser ran. *)
Definition frames (evs : list Event) : nat :=
  List.length (filter is_frame evs).

Definition is_detach (ev : Event) : bool :=
  match ev with RefsDetached => true | _ => false end.

(** Whether React cleared the refs at some point of the trace. *)
Definition detached (evs : list Event) : bool := existsb is_detach evs.

(** The render loop is running: exactly one request is pending, it is the
    one [animationFrameId] names, and its handle is positive. *)
Definition looping (w : World) : Prop :=
  0 < raf_counter (host w) /\
  raf_pending (host w) = [raf_counter (host w)] /\
  animationFrameId w = Some (raf_counter (host w)).

Definition stopped (w : World) : Prop := raf_pending (host w) = [].

(** The teardown the spec describes. *)
Definition torn_down (w : World) : Prop :=
  resize_listener (host w) = false /\
  raf_pending (host w) = [] /\
  ~ In RendererDomElement (mount_children (host w)) /\
  ~ In StatsDom (stats_children (host w)) /\
  renderer_disposed (renderer w) = true /\
  controls_disposed (controls w) = true.

Definition both_callbacks (c : LoadCall) : Prop :=
  onLoad c <> None /\ onError c <> None.

(** The load calls a mounted instance has issued. *)
Definition mounted_calls : list LoadCall :=
  [ load HDRLoader "/img/venice_sunset_1k.hdr"
         (Some hdr_loaded) None (Some hdr_failed);
    load GLTFLoader "/models/suv_body.glb"
         (Some body_loaded) None (Some body_failed) ]
  ++ wheel_calls 0 wheelPositions.

(** The five GLTF loads are calls 1 (the body) to 5 (the fourth wheel). *)
Definition model_calls : list nat := [1; 2; 3; 4; 5]%nat.

(** An event that settles one of the five GLTF loads, either way. *)
Definition settles (ev : Event) : bool :=
  match ev with
  | LoadSucceeded call (GltfAsset _) => (1 <=? call)%nat && (call <=? 5)%nat
  | LoadFailed call _ => (1 <=? call)%nat && (call <=? 5)%nat
  | _ => false
  end.

Definition settled (evs : list Event) : nat :=
  List.length (filter settles evs).

Definition call_of (ev : Event) : list nat :=
  match ev with
  | LoadSucceeded call _ => [call]
  | LoadFailed call _ => [call]
  | _ => []
  end.

(** The GLTF loads a trace settles, in the order it settles them. *)
Definition settled_calls (evs : list Event) : list nat :=
  flat_map call_of (filter settles evs).

(** The texture as the HDR success callback leaves it. *)
Definition lit (texture : Texture) : Texture :=
  mkTexture (image texture) EquirectangularReflectionMapping (Some 1.0%Q)
            (texture_disposed texture).

(** The cube [createFallbackModel] adds. *)
Definition fallback_cube : Object3D :=
  position_y_set 0.5
    (Object3D_new
       (Mesh (BoxGeometry 1 1 1)
             (OwnMaterial (mkMaterial 0xff0000 0.7 0.3 None false false)))).

(** A reaction to a failed load that is limited to logging and to adding
    fallback objects to the scene: [w'] is [w] with some console lines and
    some scene objects appended (possibly none of either), and nothing else
    differs. *)
Definition only_logs_and_falls_back (w w' : World) : Prop :=
  exists lines objects,
    w' = with_scene
           (mkScene (scene_children (scene w) ++ objects)
                    (environment (scene w)) (background (scene w)))
           (with_host (with_console (console (host w) ++ lines) (host w)) w).

(** *** The claims about the life of an instance *)

(** The render loop renders once at mount and once per frame until the
    cleanup, with one request pending at a time; from the cleanup on no
    request is pending and nothing is rendered any more, whatever happens
    afterwards. *)
Definition render_loop_runs_until_cleanup (w0 : World) : Prop :=
  forall pre post, ~ In Unmount pre ->
    looping (run pre w0) /\
    frames_rendered (renderer (run pre w0)) = S (frames pre) /\
    stopped (run (pre ++ Unmount :: post) w0) /\
    frames_rendered (renderer (run (pre ++ Unmount :: post) w0)) =
      S (frames pre).

(** What the mount effect has set up when it returns its cleanup. *)
Definition constructed (h : Host) (w0 : World) : Prop :=
  mount_children (host w0) = [RendererDomElement] /\
  stats_children (host w0) = [StatsDom] /\
  resize_listener (host w0) = true /\
  renderer_disposed (renderer w0) = false /\
  calls w0 = mounted_calls /\
  Forall both_callbacks (calls w0) /\
  raf_pending (host w0) = [raf_counter h + 1] /\
  animationFrameId w0 = Some (raf_counter h + 1) /\
  frames_rendered (renderer w0) = 1%nat.

(** What the cleanup achieves, whenever it runs: the listener, the frame
    request, the renderer and the controls always; the two DOM nodes only
    if React has not cleared the refs before. *)
Definition cleanup_tears_down (w0 : World) : Prop :=
  forall pre, ~ In Unmount pre ->
    resize_listener (host (run (pre ++ [Unmount]) w0)) = false /\
    raf_pending (host (run (pre ++ [Unmount]) w0)) = [] /\
    renderer_disposed (renderer (run (pre ++ [Unmount]) w0)) = true /\
    controls_disposed (controls (run (pre ++ [Unmount]) w0)) = true /\
    (detached pre = false -> torn_down (run (pre ++ [Unmount]) w0)) /\
    (detached pre = true ->
       mount_children (host (run (pre ++ [Unmount]) w0)) =
         [RendererDomElement] /\
       stats_children (host (run (pre ++ [Unmount]) w0)) = [StatsDom]).

(** What a failed model load does, in full: the body's error callback
    (call 1) and a wheel's (calls 2 to 5). *)
Definition failures_handled (w0 : World) : Prop :=
  forall pre e,
    step (LoadFailed 1 e) (run pre w0) =
      mkWorld (console_log "Created fallback cube"
                 (console_error "Error loading SUV body:" e
                                (host (run pre w0))))
              (if modelsLoaded (run pre w0) + 1 =? totalModels then false
               else loading (run pre w0))
              (Some "Failed to load SUV model. Using fallback.")
              (scene_add fallback_cube (scene (run pre w0)))
              (camera (run pre w0)) (renderer (run pre w0))
              (controls (run pre w0)) (stats (run pre w0))
              (modelsLoaded (run pre w0) + 1)
              (animationFrameId (run pre w0)) (calls (run pre w0)) /\
    forall i, (i < 4)%nat ->
      step (LoadFailed (2 + i) e) (run pre w0) =
        mkWorld (console_error
                   ("Error loading wheel " ++ decimal (i + 1) ++ ":")%string
                   e (host (run pre w0)))
                (if modelsLoaded (run pre w0) + 1 =? totalModels then false
                 else loading (run pre w0))
                (error (run pre w0)) (scene (run pre w0))
                (camera (run pre w0)) (renderer (run pre w0))
                (controls (run pre w0)) (stats (run pre w0))
                (modelsLoaded (run pre w0) + 1)
                (animationFrameId (run pre w0)) (calls (run pre w0)).

(** *** Auxiliary notions for the proofs *)

(** What the cleanup leaves alone, and that it cannot start the loop. *)
Definition kept (w w' : World) : Prop :=
  calls w' = calls w /\
  modelsLoaded w' = modelsLoaded w /\
  loading w' = loading w /\
  frames_rendered (renderer w') = frames_rendered (renderer w) /\
  (raf_pending (host w) = [] -> raf_pending (host w') = []).

(** [counted b w w']: going from [w] to [w'] left the load calls alone and,
    when [b], counted one more settled model. *)
Definition counted (b : bool) (w w' : World) : Prop :=
  calls w' = calls w /\
  modelsLoaded w' = modelsLoaded w + (if b then 1 else 0) /\
  loading w' =
    (if b && (modelsLoaded w + 1 =? totalModels) then false else loading w).

Definition is_model_onLoad (cb : OnLoad) (a : Asset) : bool :=
  match cb, a with
  | body_loaded, GltfAsset _ => true
  | wheel_loaded _ _, GltfAsset _ => true
  | _, _ => false
  end.

Definition is_model_onError (cb : OnError) : bool :=
  match cb with
  | hdr_failed => false
  | _ => true
  end.

(** What the render loop reads and writes. *)
Definition loop_view (w : World) : Z * list Z * option Z * nat :=
  (raf_counter (host w), raf_pending (host w), animationFrameId w,
   frames_rendered (renderer w)).

(** An event that is neither a frame nor the unmount. *)
Definition quiet (ev : Event) : bool :=
  match ev with
  | AnimationFrame | Unmount => false
  | _ => true
  end.

Definition page_view (w : World)
  : bool * list DomNode * list DomNode * RefValue * RefValue :=
  (resize_listener (host w), mount_children (host w),
   stats_children (host w), mountRef_current (host w),
   statsRef_current (host w)).

Definition ref_after (evs : list Event) : RefValue :=
  if detached evs then Null else Current.

(** *** What a trace leaves behind *)

(** The objects the mount effect adds itself: the two lights and the
    grid. *)
Definition initial_objects : list Object3D :=
  [ Object3D_new (AmbientLight 0xffffff 0.5);
    position_set 5 10 7 (Object3D_new (DirectionalLight 0xffffff 0.8));
    position_y_set (-0.5) (Object3D_new (GridHelper 10 10)) ].

(** A loaded wheel as its success callback hands it to [scene.add]. *)
Definition placed (pos : Wheel.Position) (gltf : GLTF) : Object3D :=
  let model := position_set (Wheel.x pos) (Wheel.y pos) (Wheel.z pos)
                            (gltf_scene gltf) in
  if Wheel.rotate pos then rotateY Math_PI model else model.

(** What an event adds to the scene. *)
Definition added_by (ev : Event) : list Object3D :=
  match ev with
  | LoadSucceeded call (GltfAsset gltf) =>
      match call with
      | O => []
      | S O => [gltf_scene gltf]
      | S (S i) =>
          match nth_error wheelPositions i with
          | Some pos => [placed pos gltf]
          | None => []
          end
      end
  | LoadFailed call _ =>
      match call with
      | S O => [fallback_cube]
      | _ => []
      end
  | _ => []
  end.

(** What an event writes to the console. *)
Definition lines_of (ev : Event) : list ConsoleLine :=
  match ev with
  | LoadSucceeded call a =>
      match call, a with
      | O, TextureAsset _ => [line LogLevel "HDR loaded successfully" None]
      | S O, GltfAsset _ => [line LogLevel "SUV body loaded" None]
      | S (S i), GltfAsset _ =>
          if (i <? 4)%nat
          then [line LogLevel
                     ("Wheel " ++ decimal (i + 1) ++ " loaded")%string None]
          else []
      | _, _ => []
      end
  | LoadFailed call e =>
      match call with
      | O => [line ErrorLevel "Error loading HDR:" (Some e)]
      | S O => [line ErrorLevel "Error loading SUV body:" (Some e);
                line LogLevel "Created fallback cube" None]
      | S (S i) =>
          if (i <? 4)%nat
          then [line ErrorLevel
                     ("Error loading wheel " ++ decimal (i + 1) ++ ":")%string
                     (Some e)]
          else []
      end
  | _ => []
  end.

(** The message an event passes to [setError], if any. *)
Definition message_of (ev : Event) : option string :=
  match ev with
  | LoadFailed call _ =>
      match call with
      | O => Some "Failed to load HDR environment. Using fallback."
      | S O => Some "Failed to load SUV model. Using fallback."
      | _ => None
      end
  | _ => None
  end.

(** The message of the last event of a trace that has one. *)
Definition last_message (evs : list Event) : option string :=
  fold_left (fun acc ev =>
               match message_of ev with
               | Some m => Some m
               | None => acc
               end) evs None.

(** *** What the component renders *)

(** The children of the element the component returns. *)
Inductive Element : Type :=
  | LoadingOverlay (text : string)   (* [{loading && <div>...</div>}] *)
  | WarningBanner (text : string)    (* [{error && <div>...</div>}] *)
  | MountContainer                   (* [<div ref={mountRef} />] *)
  | StatsContainer.                  (* [<div ref={statsRef} />] *)

(** The JSX the component returns for the current [useState] values. An
    empty error string is falsy and renders nothing. *)
Definition rendered (loading : bool) (error : option string)
  : list Element :=
  (if loading then [LoadingOverlay "Loading 3D assets..."] else []) ++
  match error with
  | Some m =>
      if String.eqb m "" then []
      else [WarningBanner ("Warning: " ++ m)%string]
  | None => []
  end ++
  [MountContainer; StatsContainer].

Definition view (w : World) : list Element := rendered (loading w) (error w).

(** *** More auxiliary notions for the proofs *)

(** What the load callbacks write besides the counter. *)
Definition marks (w : World)
  : list Object3D * option string * list ConsoleLine :=
  (scene_children (scene w), error w, console (host w)).

(** The three per-frame calls have been made equally often, the controls
    being one update ahead from their constructor. *)
Definition balanced (w : World) : bool :=
  Nat.eqb (control_updates (controls w))
          (S (frames_rendered (renderer w))) &&
  Nat.eqb (stats_updates (stats w)) (frames_rendered (renderer w)).

(** What the cleanup leaves alone besides [kept]. *)
Definition spared (w w' : World) : Prop :=
  marks w' = marks w /\
  balanced w' = balanced w /\
  camera w' = camera w /\
  size (renderer w') = size (renderer w) /\
  raf_counter (host w') = raf_counter (host w) /\
  mountRef_current (host w') = mountRef_current (host w) /\
  statsRef_current (host w') = statsRef_current (host w) /\
  (resize_listener (host w) = false -> resize_listener (host w') = false).

End LoadingMultipleAssets.

(* ===================================================================== *)
(** ** [LoadingAssets] *)
(* ===================================================================== *)

Module LoadingAssets.
Import Three Host.

Inductive OnLoad : Type :=
  | hdr_loaded
  | texture_loaded
  | model_loaded.

Inductive OnError : Type :=
  | hdr_failed
  | texture_failed
  | model_failed.

Record LoadCall : Type := load {
  loader : Loader;
  url : string;
  onLoad : option OnLoad;
  onProgress : option unit;
  onError : option OnError
}.

(** The component instance: the page and the variables of the mount
    effect's closure. [material] is the one material object that the plane
    and the loaded meshes share. *)
Record World : Type := mkWorld {
  host : Host;
  scene : Scene;
  camera : PerspectiveCamera;
  renderer : WebGLRenderer;
  controls : OrbitControls;
  stats : Stats;
  material : MeshStandardMaterial;
  planeGeometry_disposed : bool;
  animationFrameId : option Z;
  calls : list LoadCall
}.

Definition with_host (h : Host) (w : World) : World :=
  mkWorld h (scene w) (camera w) (renderer w) (controls w) (stats w)
          (material w) (planeGeometry_disposed w) (animationFrameId w)
          (calls w).

Definition with_scene (s : Scene) (w : World) : World :=
  mkWorld (host w) s (camera w) (renderer w) (controls w) (stats w)
          (material w) (planeGeometry_disposed w) (animationFrameId w)
          (calls w).

Definition with_camera (c : PerspectiveCamera) (w : World) : World :=
  mkWorld (host w) (scene w) c (renderer w) (controls w) (stats w)
          (material w) (planeGeometry_disposed w) (animationFrameId w)
          (calls w).

Definition with_renderer (r : WebGLRenderer) (w : World) : World :=
  mkWorld (host w) (scene w) (camera w) r (controls w) (stats w)
          (material w) (planeGeometry_disposed w) (animationFrameId w)
          (calls w).

Definition with_controls (c : OrbitControls) (w : World) : World :=
  mkWorld (host w) (scene w) (camera w) (renderer w) c (stats w)
          (material w) (planeGeometry_disposed w) (animationFrameId w)
          (calls w).

Definition with_stats (s : Stats) (w : World) : World :=
  mkWorld (host w) (scene w) (camera w) (renderer w) (controls w) s
          (material w) (planeGeometry_disposed w) (animationFrameId w)
          (calls w).

Definition with_material (m : MeshStandardMaterial) (w : World) : World :=
  mkWorld (host w) (scene w) (camera w) (renderer w) (controls w) (stats w)
          m (planeGeometry_disposed w) (animationFrameId w) (calls w).

Definition with_planeGeometry_disposed (b : bool) (w : World) : World :=
  mkWorld (host w) (scene w) (camera w) (renderer w) (controls w) (stats w)
          (material w) b (animationFrameId w) (calls w).

Definition with_animationFrameId (i : option Z) (w : World) : World :=
  mkWorld (host w) (scene w) (camera w) (renderer w) (controls w) (stats w)
          (material w) (planeGeometry_disposed w) i (calls w).

(** URLs for assets *)
Definition hdr : string := "https://sbcode.net/img/venice_sunset_1k.hdr".
Definition image_url : string := "https://sbcode.net/img/grid.png".
Definition model : string :=
  "https://sbcode.net/models/suzanne_no_material.glb".

(** *** The load callbacks *)

Definition hdr_onLoad (texture : Texture) (w : World) : World :=
  let texture :=
    mkTexture (image texture) EquirectangularReflectionMapping
              (blurriness texture) (texture_disposed texture) in
  with_scene (mkScene (scene_children (scene w)) (Some texture)
                      (TextureBackground texture)) w.

Definition hdr_onError (e : ErrorValue) (w : World) : World :=
  with_host (console_error "Error loading HDR:" e (host w)) w.

Definition texture_onLoad (texture : Texture) (w : World) : World :=
  let m := material w in
  with_material
    (mkMaterial (color m) (roughness m) (metalness m) (Some texture) true
                (material_disposed m)) w.

Definition texture_onError (e : ErrorValue) (w : World) : World :=
  with_host (console_error "Error loading texture:" e (host w)) w.

(** [object.traverse(child => { if (child instanceof THREE.Mesh)
    child.material = material })]: the object and all its descendants. *)
Fixpoint share_material (o : Object3D) : Object3D :=
  match o with
  | mkObject3D k p t cs =>
      mkObject3D
        match k with
        | Mesh g _ => Mesh g SharedMaterial
        | _ => k
        end
        p t (List.map share_material cs)
  end.

Definition model_onLoad (gltf : GLTF) (w : World) : World :=
  let root := share_material (gltf_scene gltf) in
  with_scene (scene_add root (scene w)) w.

Definition model_onError (e : ErrorValue) (w : World) : World :=
  with_host (console_error "Error loading model:" e (host w)) w.

(** *** Resize, the render loop, mount and cleanup *)

(** [mountRef.current!.clientWidth]: with the ref cleared the read throws
    a TypeError before anything is written; the handler is left, nothing
    of the component changes and the browser reports the error. *)
Definition handleResize (w : World) : World :=
  match mountRef_current (host w) with
  | Current =>
      let h := host w in
      let c := camera w in
      let w := with_camera
                 (mkCamera (fov c) (ratio (clientWidth h) (clientHeight h))
                           (near c) (far c) (camera_position c)
                           (S (projection_updates c))) w in
      with_renderer (setSize (clientWidth h) (clientHeight h) (renderer w)) w
  | Null => with_host (report_uncaught "TypeError" (host w)) w
  end.

Definition animate (w : World) : World :=
  let (handle, h) := requestAnimationFrame (host w) in
  let w := with_animationFrameId (Some handle) (with_host h w) in
  let w := with_controls (controls_update (controls w)) w in
  let w := with_renderer (render (renderer w)) w in
  with_stats (stats_update (stats w)) w.

(** The body of the mount effect. [None]: the effect returned early and
    registered no cleanup. *)
Definition effect (h : Host) : option World :=
  match mountRef_current h, statsRef_current h with
  | Current, Current =>
      (* clear any existing content *)
      let h := with_mount_children [] h in
      let h := with_stats_children [] h in
      let scene := Scene_new in
      let calls :=
        [ load HDRLoader hdr (Some hdr_loaded) None (Some hdr_failed) ] in
      let camera :=
        PerspectiveCamera_new 75 (ratio (innerWidth h) (innerHeight h))
                              0.1 100 in
      let camera :=
        mkCamera (fov camera) (aspect camera) (near camera) (far camera)
                 (vec3 (-2) 0.5 2) (projection_updates camera) in
      let renderer := WebGLRenderer_new true true in
      let renderer :=
        mkRenderer (antialias renderer) (alpha renderer) 0x000000 1
                   ACESFilmicToneMapping (size renderer)
                   (pixelRatio renderer) (frames_rendered renderer)
                   (renderer_disposed renderer) in
      let renderer := setSize (clientWidth h) (clientHeight h) renderer in
      let renderer :=
        mkRenderer (antialias renderer) (alpha renderer)
                   (clearColor renderer) (clearAlpha renderer)
                   (toneMapping renderer) (size renderer)
                   (devicePixelRatio h) (frames_rendered renderer)
                   (renderer_disposed renderer) in
      let h :=
        match mountRef_current h with
        | Current =>
            with_mount_children (mount_children h ++ [RendererDomElement]) h
        | Null => h
        end in
      let h := with_resize_listener true h in
      let controls := OrbitControls_new in
      let controls := mkControls (target_y controls) true
                                 (control_updates controls)
                                 (controls_disposed controls) in
      let material := MeshStandardMaterial_new in
      let calls :=
        calls ++ [ load TextureLoader image_url
                        (Some texture_loaded) None (Some texture_failed) ] in
      let planeGeometry := PlaneGeometry 10 10 in
      let plane := Object3D_new (Mesh planeGeometry SharedMaterial) in
      let plane := rotation_x (PiTimes (-0.5)) plane in
      let plane := position_y_set (-1) plane in
      let scene := scene_add plane scene in
      let calls :=
        calls ++ [ load GLTFLoader model
                        (Some model_loaded) None (Some model_failed) ] in
      let ambientLight := Object3D_new (AmbientLight 0xffffff 0.5) in
      let scene := scene_add ambientLight scene in
      let directionalLight :=
        Object3D_new (DirectionalLight 0xffffff 0.8) in
      let directionalLight := position_set 5 10 7 directionalLight in
      let scene := scene_add directionalLight scene in
      let stats := mkStats 0%nat in
      let h :=
        match statsRef_current h with
        | Current => with_stats_children (stats_children h ++ [StatsDom]) h
        | Null => h
        end in
      let w := mkWorld h scene camera renderer controls stats material false
                       None calls in
      Some (animate w)
  | _, _ => None
  end.

(** The cleanup, block by block.
    [window.removeEventListener("resize", handleResize)] *)
Definition stop_listening (w : World) : World :=
  with_host (with_resize_listener false (host w)) w.

(** [if (animationFrameId) cancelAnimationFrame(animationFrameId)] *)
Definition cancel_frame (w : World) : World :=
  match animationFrameId w with
  | Some handle =>
      if truthy handle
      then with_host (cancelAnimationFrame handle (host w)) w
      else w
  | None => w
  end.

(** Remove renderer: only through a ref that is still set. *)
Definition remove_renderer (w : World) : World :=
  match mountRef_current (host w) with
  | Current =>
      if contains (mount_children (host w)) RendererDomElement
      then with_host
             (with_mount_children
                (removeChild RendererDomElement (mount_children (host w)))
                (host w)) w
      else w
  | Null => w
  end.

(** Remove stats: only through a ref that is still set. *)
Definition remove_stats (w : World) : World :=
  match statsRef_current (host w) with
  | Current =>
      if contains (stats_children (host w)) StatsDom
      then with_host
             (with_stats_children
                (removeChild StatsDom (stats_children (host w)))
                (host w)) w
      else w
  | Null => w
  end.

(** Dispose Three.js resources *)
Definition dispose_resources (w : World) : World :=
  let w := with_renderer (renderer_dispose (renderer w)) w in
  let m := material w in
  let w :=
    match map m with
    | Some t =>
        with_material
          (mkMaterial (color m) (roughness m) (metalness m)
                      (Some (mkTexture (image t) (mapping t) (blurriness t)
                                       true))
                      (needsUpdate m) (material_disposed m)) w
    | None => w
    end in
  let m := material w in
  let w :=
    with_material
      (mkMaterial (color m) (roughness m) (metalness m) (map m)
                  (needsUpdate m) true) w in
  let w := with_planeGeometry_disposed true w in
  with_controls (controls_dispose (controls w)) w.

(** The function the effect returns. *)
Definition cleanup (w : World) : World :=
  let w := stop_listening w in
  let w := cancel_frame w in
  let w := remove_renderer w in
  let w := remove_stats w in
  dispose_resources w.

(** *** What can happen to a mounted instance *)

Inductive Event : Type :=
  | AnimationFrame
  | WindowResize (iw ih cw ch : Z)
  | LoadSucceeded (call : nat) (a : Asset)
  | LoadFailed (call : nat) (e : ErrorValue)
  | RefsDetached
  | Unmount.

Definition invoke_onLoad (cb : OnLoad) (a : Asset) (w : World) : World :=
  match cb, a with
  | hdr_loaded, TextureAsset t => hdr_onLoad t w
  | texture_loaded, TextureAsset t => texture_onLoad t w
  | model_loaded, GltfAsset g => model_onLoad g w
  | _, _ => w
  end.

Definition invoke_onError (cb : OnError) (e : ErrorValue) (w : World)
  : World :=
  match cb with
  | hdr_failed => hdr_onError e w
  | texture_failed => texture_onError e w
  | model_failed => model_onError e w
  end.

Definition run_frame (w : World) : World :=
  fold_left
    (fun w handle =>
       if existsb (Z.eqb handle) (raf_pending (host w))
       then animate (with_host (cancelAnimationFrame handle (host w)) w)
       else w)
    (raf_pending (host w)) w.

Definition step (ev : Event) (w : World) : World :=
  match ev with
  | AnimationFrame => run_frame w
  | WindowResize iw ih cw ch =>
      let w := with_host (with_window iw ih cw ch (host w)) w in
      if resize_listener (host w) then handleResize w else w
  | LoadSucceeded call a =>
      match nth_error (calls w) call with
      | Some c =>
          match onLoad c with
          | Some cb => invoke_onLoad cb a w
          | None => w
          end
      | None => w
      end
  | LoadFailed call e =>
      match nth_error (calls w) call with
      | Some c =>
          match onError c with
          | Some cb => invoke_onError cb e w
          | None => w
          end
      | None => w
      end
  | RefsDetached => with_host (with_refs Null Null (host w)) w
  | Unmount => cleanup w
  end.

Definition run (evs : list Event) (w : World) : World :=
  fold_left (fun w ev => step ev w) evs w.

(** *** Reading traces *)

Definition is_frame (ev : Event) : bool :=
  match ev with AnimationFrame => true | _ => false end.

(** The number of frames the browser ran. *)
Definition frames (evs : list Event) : nat :=
  List.length (filter is_frame evs).

Definition is_detach (ev : Event) : bool :=
  match ev with RefsDetached => true | _ => false end.

(** Whether React cleared the refs at some point of the trace. *)
Definition detached (evs : list Event) : bool := existsb is_detach evs.

(** The render loop is running: exactly one request is pending, it is the
    one [animationFrameId] names, and its handle is positive. *)
Definition looping (w : World) : Prop :=
  0 < raf_counter (host w) /\
  raf_pending (host w) = [raf_counter (host w)] /\
  animationFrameId w = Some (raf_counter (host w)).

Definition stopped (w : World) : Prop := raf_pending (host w) = [].

(** The teardown the spec describes. *)
Definition torn_down (w : World) : Prop :=
  resize_listener (host w) = false /\
  raf_pending (host w) = [] /\
  ~ In RendererDomElement (mount_children (host w)) /\
  ~ In StatsDom (stats_children (host w)) /\
  renderer_disposed (renderer w) = true /\
  controls_disposed (controls w) = true.

Definition both_callbacks (c : LoadCall) : Prop :=
  onLoad c <> None /\ onError c <> None.

(** The load calls a mounted instance has issued. *)
Definition mounted_calls : list LoadCall :=
  [ load HDRLoader hdr (Some hdr_loaded) None (Some hdr_failed);
    load TextureLoader image_url (Some texture_loaded) None
         (Some texture_failed);
    load GLTFLoader model (Some model_loaded) None (Some model_failed) ].

(** *** The claims about the life of an instance *)

(** The render loop renders once at mount and once per frame until the
    cleanup, with one request pending at a time; from the cleanup on no
    request is pending and nothing is rendered any more, whatever happens
    afterwards. *)
Definition render_loop_runs_until_cleanup (w0 : World) : Prop :=
  forall pre post, ~ In Unmount pre ->
    looping (run pre w0) /\
    frames_rendered (renderer (run pre w0)) = S (frames pre) /\
    stopped (run (pre ++ Unmount :: post) w0) /\
    frames_rendered (renderer (run (pre ++ Unmount :: post) w0)) =
      S (frames pre).

(** What the mount effect has set up when it returns its cleanup. *)
Definition constructed (h : Host) (w0 : World) : Prop :=
  mount_children (host w0) = [RendererDomElement] /\
  stats_children (host w0) = [StatsDom] /\
  resize_listener (host w0) = true /\
  renderer_disposed (renderer w0) = false /\
  calls w0 = mounted_calls /\
  Forall both_callbacks (calls w0) /\
  raf_pending (host w0) = [raf_counter h + 1] /\
  animationFrameId w0 = Some (raf_counter h + 1) /\
  frames_rendered (renderer w0) = 1%nat.

(** What the cleanup achieves, whenever it runs: the listener, the frame
    request, the renderer and the controls always; the two DOM nodes only
    if React has not cleared the refs before. *)
Definition cleanup_tears_down (w0 : World) : Prop :=
  forall pre, ~ In Unmount pre ->
    resize_listener (host (run (pre ++ [Unmount]) w0)) = false /\
    raf_pending (host (run (pre ++ [Unmount]) w0)) = [] /\
    renderer_disposed (renderer (run (pre ++ [Unmount]) w0)) = true /\
    controls_disposed (controls (run (pre ++ [Unmount]) w0)) = true /\
    (detached pre = false -> torn_down (run (pre ++ [Unmount]) w0)) /\
    (detached pre = true ->
       mount_children (host (run (pre ++ [Unmount]) w0)) =
         [RendererDomElement] /\
       stats_children (host (run (pre ++ [Unmount]) w0)) = [StatsDom]).

(** What a failed model load does, in full: the GLTF error callback
    (call 2) writes one console line. *)
Definition failures_handled (w0 : World) : Prop :=
  forall pre e,
    step (LoadFailed 2 e) (run pre w0) =
      with_host (console_error "Error loading model:" e (host (run pre w0)))
                (run pre w0).

(** *** Auxiliary notions for the proofs *)

(** What the cleanup leaves alone, and that it cannot start the loop. *)
Definition kept (w w' : World) : Prop :=
  calls w' = calls w /\
  frames_rendered (renderer w') = frames_rendered (renderer w) /\
  (raf_pending (host w) = [] -> raf_pending (host w') = []).

(** What the render loop reads and writes. *)
Definition loop_view (w : World) : Z * list Z * option Z * nat :=
  (raf_counter (host w), raf_pending (host w), animationFrameId w,
   frames_rendered (renderer w)).

(** An event that is neither a frame nor the unmount. *)
Definition quiet (ev : Event) : bool :=
  match ev with
  | AnimationFrame | Unmount => false
  | _ => true
  end.

Definition page_view (w : World)
  : bool * list DomNode * list DomNode * RefValue * RefValue :=
  (resize_listener (host w), mount_children (host w),
   stats_children (host w), mountRef_current (host w),
   statsRef_current (host w)).

Definition ref_after (evs : list Event) : RefValue :=
  if detached evs then Null else Current.

(** *** What a trace leaves behind *)

(** The objects the mount effect adds itself: the plane and the two
    lights. *)
Definition initial_objects : list Object3D :=
  [ position_y_set (-1)
      (rotation_x (PiTimes (-0.5))
         (Object3D_new (Mesh (PlaneGeometry 10 10) SharedMaterial)));
    Object3D_new (AmbientLight 0xffffff 0.5);
    position_set 5 10 7 (Object3D_new (DirectionalLight 0xffffff 0.8)) ].

(** What an event adds to the scene. *)
Definition added_by (ev : Event) : list Object3D :=
  match ev with
  | LoadSucceeded call (GltfAsset gltf) =>
      match call with
      | S (S O) => [share_material (gltf_scene gltf)]
      | _ => []
      end
  | _ => []
  end.

(** What an event writes to the console. *)
Definition lines_of (ev : Event) : list ConsoleLine :=
  match ev with
  | LoadFailed call e =>
      match call with
      | O => [line ErrorLevel "Error loading HDR:" (Some e)]
      | S O => [line ErrorLevel "Error loading texture:" (Some e)]
      | S (S O) => [line ErrorLevel "Error loading model:" (Some e)]
      | _ => []
      end
  | _ => []
  end.

Definition is_unmount (ev : Event) : bool :=
  match ev with Unmount => true | _ => false end.

(** What an event writes to the console, given whether the resize listener
    is still registered and whether the mount ref has been cleared: a
    resize that is heard with the ref cleared ends in the uncaught
    TypeError of [handleResize]. *)
Definition lines_at (listening cleared : bool) (ev : Event)
  : list ConsoleLine :=
  match ev with
  | WindowResize _ _ _ _ =>
      if listening && cleared then [line UncaughtLevel "TypeError" None]
      else []
  | _ => lines_of ev
  end.

(** The console lines of a trace: the listener is registered until the
    cleanup, the ref is set until React clears it. *)
Fixpoint logged (listening cleared : bool) (evs : list Event)
  : list ConsoleLine :=
  match evs with
  | [] => []
  | ev :: rest =>
      lines_at listening cleared ev ++
      logged (listening && negb (is_unmount ev)) (cleared || is_detach ev)
             rest
  end.

(** An event that writes [material.map] or disposes the material: the
    delivery of the texture and the cleanup. *)
Definition touches_material (ev : Event) : bool :=
  match ev with
  | Unmount => true
  | LoadSucceeded (S O) (TextureAsset _) => true
  | _ => false
  end.

(** Every mesh of the object and below it uses the shared material. *)
Fixpoint all_shared (o : Object3D) : bool :=
  match o with
  | mkObject3D k _ _ cs =>
      match k with
      | Mesh _ SharedMaterial => true
      | Mesh _ (OwnMaterial _) => false
      | _ => true
      end && forallb all_shared cs
  end.

(** Two kinds that differ at most in the material of a mesh. *)
Definition same_but_material (k k' : Kind) : Prop :=
  match k, k' with
  | Mesh g _, Mesh g' _ => g = g'
  | _, _ => k = k'
  end.

(** Two object trees that differ at most in the materials of their
    meshes: same positions, turns, geometries and children, node by node. *)
Inductive rematerialed : Object3D -> Object3D -> Prop :=
  | rematerialed_node k k' p t cs cs' :
      same_but_material k k' ->
      Forall2 rematerialed cs cs' ->
      rematerialed (mkObject3D k p t cs) (mkObject3D k' p t cs').

(** An event that delivers an asset, and the call it settles. *)
Definition is_success (ev : Event) : bool :=
  match ev with LoadSucceeded _ _ => true | _ => false end.

Definition call_of (ev : Event) : list nat :=
  match ev with
  | LoadSucceeded call _ => [call]
  | LoadFailed call _ => [call]
  | _ => []
  end.

(** What the success callback of load [call] does with asset [a]. *)
Definition deliver (call : nat) (a : Asset) (w : World) : World :=
  match call, a with
  | O, TextureAsset t => hdr_onLoad t w
  | S O, TextureAsset t => texture_onLoad t w
  | S (S O), GltfAsset g => model_onLoad g w
  | _, _ => w
  end.

(** [texture.dispose()] *)
Definition texture_dispose (t : Texture) : Texture :=
  mkTexture (image t) (mapping t) (blurriness t) true.

(** *** More auxiliary notions for the proofs *)

Definition marks (w : World) : list Object3D * list ConsoleLine :=
  (scene_children (scene w), console (host w)).

Definition balanced (w : World) : bool :=
  Nat.eqb (control_updates (controls w))
          (S (frames_rendered (renderer w))) &&
  Nat.eqb (stats_updates (stats w)) (frames_rendered (renderer w)).

(** What the cleanup leaves alone besides [kept]. *)
Definition spared (w w' : World) : Prop :=
  marks w' = marks w /\
  balanced w' = balanced w /\
  camera w' = camera w /\
  size (renderer w') = size (renderer w) /\
  raf_counter (host w') = raf_counter (host w) /\
  mountRef_current (host w') = mountRef_current (host w) /\
  statsRef_current (host w') = statsRef_current (host w) /\
  (resize_listener (host w) = false -> resize_listener (host w') = false) /\
  scene w' = scene w.

End LoadingAssets.

(* ===================================================================== *)
(** ** Sample inputs *)
(* ===================================================================== *)

Module Sample.
Import Three Host.

(** A page with both refs attached, some stale content in the mount
    container, and no animation frame requested so far. *)
Definition page : Host :=
  mkHost 0 [] false Current Current [Leftover 0] [] 1280 720 1024 648 2 [].

(** The same page before React has attached the mount ref. *)
Definition page_without_mount : Host :=
  mkHost 0 [] false Null Current [] [] 1280 720 1024 648 2 [].

Definition suv : GLTF := mkGLTF (Object3D_new Group).

Definition sunset : Texture :=
  mkTexture "venice_sunset_1k" UVMapping None false.

(** Five model loads settling out of order, two of them failing, with the
    HDR load, a frame and a resize in between. *)
Definition racing : list LoadingMultipleAssets.Event :=
  [ LoadingMultipleAssets.LoadFailed 3 "404";
    LoadingMultipleAssets.LoadSucceeded 1 (GltfAsset suv);
    LoadingMultipleAssets.AnimationFrame;
    LoadingMultipleAssets.LoadSucceeded 0 (TextureAsset sunset);
    LoadingMultipleAssets.LoadSucceeded 5 (GltfAsset suv);
    LoadingMultipleAssets.LoadFailed 2 "timeout";
    LoadingMultipleAssets.WindowResize 800 600 640 480;
    LoadingMultipleAssets.LoadSucceeded 4 (GltfAsset suv) ].

End Sample.
(* ===================================================================== *)
(** ** Facts about [LoadingMultipleAssets] *)
(* ===================================================================== *)

Module MultipleFacts.
Import Three Host LoadingMultipleAssets.

Ltac open_world w :=
  destruct w as [[rc rp rl mr sr mc stc wi hi cwi chi dpr con]
                 l e sc ca re co st n fid cs].

Ltac split_ifs :=
  repeat match goal with
         | |- context [match ?c with _ => _ end] =>
             lazymatch c with
             | context [match _ with _ => _ end] => fail
             | _ => destruct c; cbn
             end
         end.

Ltac open_callbacks :=
  unfold invoke_onLoad, invoke_onError, hdr_onLoad, hdr_onError, body_onLoad,
         body_onError, wheel_onLoad, wheel_onError, createFallbackModel,
         model_settled, handleResize;
  cbn -[decimal String.append].

Lemma multi_run_snoc evs ev w : run (evs ++ [ev]) w = step ev (run evs w).
Proof. unfold run. now rewrite fold_left_app. Qed.

Lemma multi_run_app a b w : run (a ++ b) w = run b (run a w).
Proof. unfold run. now rewrite fold_left_app. Qed.

(** A frame keeps whatever one turn of [animate] keeps. *)
Lemma multi_frame_keeps {A : Type} (f : World -> A) :
  (forall k w,
     f (animate (with_host (cancelAnimationFrame k (host w)) w)) = f w) ->
  forall w, f (run_frame w) = f w.
Proof.
  intros Ha w. unfold run_frame. generalize (raf_pending (host w)) as l.
  intro l. revert w.
  induction l as [|k l IH]; intro w; cbn [fold_left]; [reflexivity|].
  rewrite IH. destruct (existsb _ _); [|reflexivity]. apply Ha.
Qed.

(** *** The cleanup, block by block *)

Lemma multi_kept_trans a b c : kept a b -> kept b c -> kept a c.
Proof.
  unfold kept. intros (A1 & A2 & A3 & A4 & A5) (B1 & B2 & B3 & B4 & B5).
  repeat split; try congruence. auto.
Qed.

Ltac kept_block w f :=
  open_world w; unfold kept, f; cbn; split_ifs;
  repeat split; auto; cbn; intros ->; reflexivity.

Lemma multi_kept_stop_listening w : kept w (stop_listening w).
Proof. kept_block w stop_listening. Qed.

Lemma multi_kept_cancel_frame w : kept w (cancel_frame w).
Proof. kept_block w cancel_frame. Qed.

Lemma multi_kept_remove_renderer w : kept w (remove_renderer w).
Proof. kept_block w remove_renderer. Qed.

Lemma multi_kept_remove_stats w : kept w (remove_stats w).
Proof. kept_block w remove_stats. Qed.

Lemma multi_kept_dispose_resources w : kept w (dispose_resources w).
Proof. kept_block w dispose_resources. Qed.

Lemma multi_kept_cleanup w : kept w (cleanup w).
Proof.
  unfold cleanup.
  eapply multi_kept_trans; [|apply multi_kept_dispose_resources].
  eapply multi_kept_trans; [|apply multi_kept_remove_stats].
  eapply multi_kept_trans; [|apply multi_kept_remove_renderer].
  eapply multi_kept_trans; [|apply multi_kept_cancel_frame].
  apply multi_kept_stop_listening.
Qed.

(** The cleanup of a running loop, field by field. *)
Lemma multi_removeChild_absent n l :
  contains l n = false -> removeChild n l = l.
Proof.
  unfold contains, removeChild. induction l as [|k l IH]; [reflexivity|].
  cbn. destruct (DomNode_eqb n k); [discriminate|]. cbn.
  intro H. now rewrite IH.
Qed.

Ltac simpl_world :=
  cbn -[contains removeChild truthy cancelAnimationFrame stop_listening
        cancel_frame remove_renderer remove_stats dispose_resources].

Lemma multi_cleanup_spec w :
  looping w ->
  resize_listener (host (cleanup w)) = false /\
  raf_pending (host (cleanup w)) = [] /\
  renderer_disposed (renderer (cleanup w)) = true /\
  controls_disposed (controls (cleanup w)) = true /\
  mount_children (host (cleanup w)) =
    match mountRef_current (host w) with
    | Current => removeChild RendererDomElement (mount_children (host w))
    | Null => mount_children (host w)
    end /\
  stats_children (host (cleanup w)) =
    match statsRef_current (host w) with
    | Current => removeChild StatsDom (stats_children (host w))
    | Null => stats_children (host w)
    end.
Proof.
  open_world w. unfold looping. simpl_world. intros (Hpos & -> & ->).
  assert (T : truthy rc = true).
  { unfold truthy. destruct (rc =? 0) eqn:Z0; [apply Z.eqb_eq in Z0; lia|].
    reflexivity. }
  pose proof (multi_removeChild_absent RendererDomElement mc) as R1.
  pose proof (multi_removeChild_absent StatsDom stc) as R2.
  unfold cleanup. cbv zeta.
  unfold stop_listening. simpl_world.
  unfold cancel_frame. simpl_world. rewrite T.
  unfold cancelAnimationFrame. simpl_world. rewrite Z.eqb_refl. simpl_world.
  unfold remove_renderer. simpl_world.
  destruct mr; [|destruct (contains mc RendererDomElement) eqn:C1];
    simpl_world;
    (unfold remove_stats; simpl_world;
     destruct sr; [|destruct (contains stc StatsDom) eqn:C2];
     simpl_world; unfold dispose_resources; simpl_world;
     rewrite ?R1, ?R2 by (assumption || reflexivity);
     repeat split; reflexivity).
Qed.


(** *** The completion counter *)

Ltac untouched :=
  unfold counted; cbn -[decimal String.append]; rewrite ?Z.add_0_r; auto.

Lemma multi_counted_refl w : counted false w w.
Proof. untouched. Qed.

Lemma multi_counted_model_settled w w' :
  counted false w w' -> counted true w (model_settled w').
Proof.
  unfold counted, model_settled. cbn. rewrite Z.add_0_r.
  intros (Hc & Hm & Hl). rewrite Hm.
  destruct (modelsLoaded w + 1 =? totalModels); cbn; auto.
Qed.

Lemma multi_counted_onLoad cb a w :
  counted (is_model_onLoad cb a) w (invoke_onLoad cb a w).
Proof.
  destruct cb, a; cbn [invoke_onLoad is_model_onLoad];
    try apply multi_counted_refl;
    try (apply multi_counted_model_settled; untouched); untouched.
Qed.

Lemma multi_counted_onError cb e w :
  counted (is_model_onError cb) w (invoke_onError cb e w).
Proof.
  destruct cb; cbn [invoke_onError is_model_onError];
    try apply multi_counted_refl;
    try (apply multi_counted_model_settled; untouched); untouched.
Qed.

Lemma multi_counted_run_frame w : counted false w (run_frame w).
Proof.
  unfold counted. cbn [andb].
  rewrite (multi_frame_keeps calls), (multi_frame_keeps modelsLoaded),
          (multi_frame_keeps loading); try reflexivity.
  rewrite Z.add_0_r. auto.
Qed.

Lemma multi_counted_cleanup w : counted false w (cleanup w).
Proof.
  destruct (multi_kept_cleanup w) as (Hc & Hm & Hl & _).
  unfold counted. cbn [andb]. rewrite Z.add_0_r. auto.
Qed.

Lemma multi_call_kind call c :
  nth_error mounted_calls call = Some c ->
  (forall cb a, onLoad c = Some cb ->
     is_model_onLoad cb a =
       match a with
       | GltfAsset _ => (1 <=? call)%nat && (call <=? 5)%nat
       | TextureAsset _ => false
       end) /\
  (forall cb, onError c = Some cb ->
     is_model_onError cb = (1 <=? call)%nat && (call <=? 5)%nat) /\
  onLoad c <> None /\ onError c <> None.
Proof.
  intro H.
  do 6 (destruct call as [|call];
        [ injection H as <-; cbn; repeat split; try discriminate;
          intros; repeat match goal with
                         | E : Some _ = Some _ |- _ => injection E as <-
                         end; try destruct a; reflexivity | ]).
  destruct call; discriminate.
Qed.

Lemma multi_beyond_calls call :
  nth_error mounted_calls call = None ->
  (1 <=? call)%nat && (call <=? 5)%nat = false.
Proof.
  intro E. apply nth_error_None in E. cbn in E.
  apply andb_false_iff. right. apply Nat.leb_gt. lia.
Qed.

Lemma multi_step_counted ev w :
  calls w = mounted_calls -> counted (settles ev) w (step ev w).
Proof.
  intro Hc. destruct ev as [|iw ih cw ch|call a|call e| |]; cbn [step settles].
  - apply multi_counted_run_frame.
  - destruct (resize_listener _); untouched.
  - destruct (nth_error (calls w) call) as [c|] eqn:E; rewrite Hc in E.
    + destruct (multi_call_kind _ _ E) as (HL & _ & N & _).
      destruct (onLoad c) as [cb|] eqn:Ecb; [|congruence].
      specialize (HL cb a eq_refl).
      destruct a; rewrite <- HL; apply multi_counted_onLoad.
    + rewrite (multi_beyond_calls _ E). destruct a; apply multi_counted_refl.
  - destruct (nth_error (calls w) call) as [c|] eqn:E; rewrite Hc in E.
    + destruct (multi_call_kind _ _ E) as (_ & HE & _ & N).
      destruct (onError c) as [cb|] eqn:Ecb; [|congruence].
      rewrite <- (HE cb eq_refl). apply multi_counted_onError.
    + rewrite (multi_beyond_calls _ E). apply multi_counted_refl.
  - untouched.
  - apply multi_counted_cleanup.
Qed.

Lemma multi_effect_start h w :
  effect h = Some w ->
  calls w = mounted_calls /\ modelsLoaded w = 0 /\ loading w = true /\
  renderer_disposed (renderer w) = false.
Proof.
  unfold effect.
  destruct (mountRef_current h), (statsRef_current h); try discriminate.
  intro E. injection E as <-. repeat split; reflexivity.
Qed.

Lemma multi_settled_app a b : settled (a ++ b) = (settled a + settled b)%nat.
Proof. unfold settled. now rewrite filter_app, length_app. Qed.

Lemma multi_settled_one ev : settled [ev] = if settles ev then 1%nat else 0%nat.
Proof. unfold settled. cbn. now destruct (settles ev). Qed.

Lemma multi_settled_calls_length evs :
  List.length (settled_calls evs) = settled evs.
Proof.
  unfold settled_calls, settled.
  induction evs as [|ev evs IH]; [reflexivity|]. cbn [filter].
  destruct (settles ev) eqn:E; [|exact IH].
  cbn [flat_map List.length]. rewrite length_app, IH.
  destruct ev; try discriminate; reflexivity.
Qed.

(** From the mount on, the counter is the number of settled model loads,
    and [loading] is set exactly while that number is below five. *)
Lemma multi_run_counter h w0 :
  effect h = Some w0 ->
  forall evs,
    calls (run evs w0) = mounted_calls /\
    modelsLoaded (run evs w0) = Z.of_nat (settled evs) /\
    loading (run evs w0) = (modelsLoaded (run evs w0) <? totalModels).
Proof.
  intros E evs. induction evs as [|ev evs IH] using rev_ind.
  - destruct (multi_effect_start _ _ E) as (Hc & Hm & Hl & _).
    cbn [run fold_left]. rewrite Hm, Hl. auto.
  - destruct IH as (Hc & Hm & Hl).
    rewrite multi_run_snoc, multi_settled_app, multi_settled_one.
    destruct (multi_step_counted ev _ Hc) as (Hc' & Hm' & Hl').
    split; [congruence|]. split.
    + rewrite Hm', Hm. destruct (settles ev); lia.
    + rewrite Hl', Hm', Hl, Hm. unfold totalModels.
      destruct (settles ev); cbn [andb].
      * destruct (Z.of_nat (settled evs) + 1 =? 5) eqn:E5.
        -- apply Z.eqb_eq in E5. symmetry. apply Z.ltb_ge. lia.
        -- apply Z.eqb_neq in E5.
           destruct (Z.of_nat (settled evs) <? 5) eqn:L;
             symmetry; [apply Z.ltb_lt; apply Z.ltb_lt in L; lia
                       | apply Z.ltb_ge; apply Z.ltb_ge in L; lia].
      * now rewrite Z.add_0_r.
Qed.

Lemma multi_wheel_call i pos :
  nth_error wheelPositions i = Some pos ->
  nth_error mounted_calls (2 + i) =
    Some (load GLTFLoader "/models/suv_wheel.glb"
               (Some (wheel_loaded pos i)) None (Some (wheel_failed i))) /\
  (Wheel.rotate pos = true <-> Wheel.x pos = 0.65%Q).
Proof.
  intro H.
  do 4 (destruct i as [|i];
        [ injection H as <-; split; [reflexivity|];
          split; intro; (reflexivity || discriminate) | ]).
  destruct i; discriminate.
Qed.

Lemma multi_scene_model_settled w : scene (model_settled w) = scene w.
Proof.
  unfold model_settled. cbn.
  destruct (modelsLoaded w + 1 =? totalModels); reflexivity.
Qed.

Lemma multi_host_model_settled w : host (model_settled w) = host w.
Proof.
  unfold model_settled. cbn.
  destruct (modelsLoaded w + 1 =? totalModels); reflexivity.
Qed.

(** *** The render loop *)

Lemma multi_quiet_loop_view ev w :
  quiet ev = true -> loop_view (step ev w) = loop_view w.
Proof.
  open_world w.
  destruct ev as [|iw ih cw ch|call a|call e'| |]; try discriminate; intros _.
  - cbn [step]. open_callbacks. split_ifs; reflexivity.
  - cbn [step calls]. destruct (nth_error cs call) as [c|]; [|reflexivity].
    destruct (onLoad c) as [cb|]; [|reflexivity].
    destruct cb, a; open_callbacks; split_ifs; reflexivity.
  - cbn [step calls]. destruct (nth_error cs call) as [c|]; [|reflexivity].
    destruct (onError c) as [cb|]; [|reflexivity].
    destruct cb; open_callbacks; split_ifs; reflexivity.
  - reflexivity.
Qed.

Lemma multi_effect_looping h w :
  host_ok h -> effect h = Some w ->
  looping w /\ frames_rendered (renderer w) = 1%nat /\
  raf_counter (host w) = raf_counter h + 1.
Proof.
  intros (Hp & Hc). unfold effect.
  destruct (mountRef_current h), (statsRef_current h); try discriminate.
  intro E. injection E as <-. destruct h. cbn in *. subst.
  repeat split; cbn; lia.
Qed.

Lemma multi_frame_looping w :
  looping w ->
  looping (run_frame w) /\
  frames_rendered (renderer (run_frame w)) = S (frames_rendered (renderer w)).
Proof.
  open_world w.
  unfold looping, run_frame. cbn. intros (Hpos & -> & ->).
  cbn. rewrite Z.eqb_refl. cbn.
  repeat split; lia.
Qed.

Lemma multi_step_stopped ev w :
  stopped w ->
  stopped (step ev w) /\
  frames_rendered (renderer (step ev w)) = frames_rendered (renderer w).
Proof.
  intro S. destruct (quiet ev) eqn:Q.
  - pose proof (multi_quiet_loop_view ev w Q) as V. unfold loop_view in V.
    injection V as _ Hp _ Hf. unfold stopped. now rewrite Hp.
  - destruct ev; try discriminate.
    + unfold stopped in *. cbn [step]. unfold run_frame. rewrite S. cbn.
      now split.
    + cbn [step]. destruct (multi_kept_cleanup w) as (_ & _ & _ & F & P).
      split; [exact (P S) | exact F].
Qed.

Lemma multi_run_stopped evs w :
  stopped w ->
  stopped (run evs w) /\
  frames_rendered (renderer (run evs w)) = frames_rendered (renderer w).
Proof.
  revert w. induction evs as [|ev evs IH]; intros w S; [now split|].
  cbn [run fold_left]. destruct (multi_step_stopped ev w S) as (S' & F).
  destruct (IH _ S') as (S'' & F'). fold (run evs (step ev w)).
  split; [exact S''|congruence].
Qed.

Lemma multi_run_looping h w0 :
  host_ok h -> effect h = Some w0 ->
  forall pre, ~ In Unmount pre ->
    looping (run pre w0) /\
    frames_rendered (renderer (run pre w0)) = S (frames pre).
Proof.
  intros Hh E pre. induction pre as [|ev pre IH] using rev_ind; intro NU.
  - destruct (multi_effect_looping _ _ Hh E) as (L & F & _). now split.
  - rewrite multi_run_snoc. unfold frames. rewrite filter_app, length_app.
    assert (NU' : ~ In Unmount pre) by (intro; apply NU, in_or_app; now left).
    destruct (IH NU') as (L & F). fold (frames pre).
    destruct (quiet ev) eqn:Q.
    + pose proof (multi_quiet_loop_view ev (run pre w0) Q) as V.
      unfold loop_view in V.
      injection V as Hc Hp Hi Hf. unfold looping.
      rewrite Hc, Hp, Hi, Hf. split; [exact L|].
      rewrite F. destruct ev; try discriminate; cbn; lia.
    + destruct ev; try discriminate.
      * cbn [step]. destruct (multi_frame_looping _ L) as (L' & F').
        split; [exact L'|]. rewrite F', F. cbn. lia.
      * exfalso. apply NU, in_or_app. right. now left.
Qed.

(** The loop over a whole life: it renders once per frame until the
    cleanup and never again. *)
Lemma multi_render_loop h w0 :
  host_ok h -> effect h = Some w0 -> render_loop_runs_until_cleanup w0.
Proof.
  intros Hh E pre post NU.
  destruct (multi_run_looping _ _ Hh E pre NU) as (L & F).
  split; [exact L|]. split; [exact F|].
  rewrite multi_run_app.
  change (run (Unmount :: post) (run pre w0))
    with (run post (cleanup (run pre w0))).
  destruct (multi_cleanup_spec _ L) as (_ & P & _).
  destruct (multi_kept_cleanup (run pre w0)) as (_ & _ & _ & F' & _).
  destruct (multi_run_stopped post _ P) as (S' & F'').
  split; [exact S'|congruence].
Qed.

(** *** The page around the loop *)

Lemma multi_step_page_view ev w :
  ev <> Unmount -> ev <> RefsDetached ->
  page_view (step ev w) = page_view w.
Proof.
  intros NU ND.
  destruct ev as [|iw ih cw ch|call a|call e'| |]; try congruence.
  - cbn [step]. apply multi_frame_keeps.
    intros k [[] ? ? ? ? ? ? ? ? ? ?]. reflexivity.
  - open_world w. cbn [step]. open_callbacks. split_ifs; reflexivity.
  - open_world w.
    cbn [step calls]. destruct (nth_error cs call) as [c|]; [|reflexivity].
    destruct (onLoad c) as [cb|]; [|reflexivity].
    destruct cb, a; open_callbacks; split_ifs; reflexivity.
  - open_world w.
    cbn [step calls]. destruct (nth_error cs call) as [c|]; [|reflexivity].
    destruct (onError c) as [cb|]; [|reflexivity].
    destruct cb; open_callbacks; split_ifs; reflexivity.
Qed.

Lemma multi_run_page_view h w0 :
  effect h = Some w0 ->
  forall pre, ~ In Unmount pre ->
    page_view (run pre w0) =
    (true, [RendererDomElement], [StatsDom], ref_after pre, ref_after pre).
Proof.
  intros E pre. induction pre as [|ev pre IH] using rev_ind; intro NU.
  - revert E. unfold effect.
    destruct (mountRef_current h) eqn:M, (statsRef_current h) eqn:S;
      try discriminate.
    intro E. injection E as <-. destruct h. cbn in M, S. subst. reflexivity.
  - rewrite multi_run_snoc.
    assert (NU' : ~ In Unmount pre) by (intro; apply NU, in_or_app; now left).
    assert (NE : ev <> Unmount)
      by (intros ->; apply NU, in_or_app; right; now left).
    specialize (IH NU').
    unfold ref_after, detached. rewrite existsb_app. cbn [existsb].
    rewrite orb_false_r. fold (detached pre).
    destruct ev; try congruence;
      try (rewrite multi_step_page_view by congruence; rewrite IH;
           unfold ref_after; cbn [is_detach]; now rewrite orb_false_r).
    cbn [is_detach]. rewrite orb_true_r.
    unfold page_view in *. cbn. congruence.
Qed.

Lemma multi_effect_guard h :
  effect h = None <->
  mountRef_current h = Null \/ statsRef_current h = Null.
Proof.
  unfold effect.
  destruct (mountRef_current h), (statsRef_current h); split;
    try discriminate; auto; intros [|]; discriminate.
Qed.

(** Mount and unmount. *)
Lemma multi_lifecycle h w0 :
  host_ok h -> effect h = Some w0 ->
  constructed h w0 /\ cleanup_tears_down w0.
Proof.
  intros Hh E.
  pose proof (multi_run_page_view _ _ E [] (fun x => x)) as V0.
  unfold page_view in V0. cbn [run fold_left] in V0.
  injection V0 as R M S _ _.
  destruct (multi_effect_looping _ _ Hh E) as ((Hpos & Hp & Hi) & F & Hc).
  destruct (multi_effect_start _ _ E) as (C & _ & _ & D).
  split.
  { unfold constructed.
    split; [exact M|]. split; [exact S|]. split; [exact R|].
    split; [exact D|]. split; [exact C|]. split.
    { rewrite C. repeat constructor; discriminate. }
    split; [now rewrite Hp, Hc|]. split; [now rewrite Hi, Hc|].
    exact F. }
  intros pre NU. rewrite multi_run_snoc. cbn [step].
  destruct (multi_run_looping _ _ Hh E pre NU) as (L & _).
  pose proof (multi_run_page_view _ _ E pre NU) as V. unfold page_view in V.
  injection V as R' M' S' RM RS.
  destruct (multi_cleanup_spec _ L) as (A1 & A2 & A3 & A4 & A5 & A6).
  rewrite RM, M' in A5. rewrite RS, S' in A6. unfold ref_after in A5, A6.
  split; [exact A1|]. split; [exact A2|]. split; [exact A3|].
  split; [exact A4|]. split.
  - intros D'. rewrite D' in A5, A6.
    unfold torn_down. rewrite A5, A6. cbn.
    repeat split; auto; intros [Q|[]]; discriminate.
  - intros D'. rewrite D' in A5, A6. now split.
Qed.

(** *** Failed model loads *)

Lemma multi_failures h w0 :
  effect h = Some w0 -> failures_handled w0.
Proof.
  intros E pre e.
  destruct (multi_run_counter _ _ E pre) as (Hc & _).
  generalize dependent (run pre w0). intros w Hc.
  split.
  - cbn [step]. rewrite Hc at 1. cbn [nth_error mounted_calls app onError].
    cbn [invoke_onError]. unfold body_onError, model_settled.
    cbn -[Z.add]. destruct (modelsLoaded w + 1 =? totalModels); reflexivity.
  - intros i Hi. cbn [step]. rewrite Hc at 1.
    do 4 (destruct i as [|i];
          [ cbn [Nat.add nth_error mounted_calls app wheel_calls
                 wheelPositions onError invoke_onError];
            unfold wheel_onError, model_settled;
            cbn -[Z.add decimal String.append];
            destruct (modelsLoaded w + 1 =? totalModels); reflexivity | ]).
    lia.
Qed.

End MultipleFacts.
(* ===================================================================== *)
(** ** Facts about [LoadingAssets] *)
(* ===================================================================== *)

Module SingleFacts.
Import Three Host LoadingAssets.

Ltac open_world w :=
  destruct w as [[rc rp rl mr sr mc stc wi hi cwi chi dpr con]
                 sc ca re co st ma pg fid cs].

Ltac split_ifs :=
  repeat match goal with
         | |- context [match ?c with _ => _ end] =>
             lazymatch c with
             | context [match _ with _ => _ end] => fail
             | _ => destruct c; cbn
             end
         end.

Ltac open_callbacks :=
  unfold invoke_onLoad, invoke_onError, hdr_onLoad, hdr_onError,
         texture_onLoad, texture_onError, model_onLoad, model_onError,
         handleResize;
  cbn -[share_material].

Lemma single_run_snoc evs ev w : run (evs ++ [ev]) w = step ev (run evs w).
Proof. unfold run. now rewrite fold_left_app. Qed.

Lemma single_run_app a b w : run (a ++ b) w = run b (run a w).
Proof. unfold run. now rewrite fold_left_app. Qed.

(** A frame keeps whatever one turn of [animate] keeps. *)
Lemma single_frame_keeps {A : Type} (f : World -> A) :
  (forall k w,
     f (animate (with_host (cancelAnimationFrame k (host w)) w)) = f w) ->
  forall w, f (run_frame w) = f w.
Proof.
  intros Ha w. unfold run_frame. generalize (raf_pending (host w)) as l.
  intro l. revert w.
  induction l as [|k l IH]; intro w; cbn [fold_left]; [reflexivity|].
  rewrite IH. destruct (existsb _ _); [|reflexivity]. apply Ha.
Qed.

(** *** The cleanup, block by block *)

Lemma single_kept_trans a b c : kept a b -> kept b c -> kept a c.
Proof.
  unfold kept. intros (A1 & A4 & A5) (B1 & B4 & B5).
  repeat split; try congruence. auto.
Qed.

Ltac kept_block w f :=
  open_world w; unfold kept, f; cbn; split_ifs;
  repeat split; auto; cbn; intros ->; reflexivity.

Lemma single_kept_stop_listening w : kept w (stop_listening w).
Proof. kept_block w stop_listening. Qed.

Lemma single_kept_cancel_frame w : kept w (cancel_frame w).
Proof. kept_block w cancel_frame. Qed.

Lemma single_kept_remove_renderer w : kept w (remove_renderer w).
Proof. kept_block w remove_renderer. Qed.

Lemma single_kept_remove_stats w : kept w (remove_stats w).
Proof. kept_block w remove_stats. Qed.

Lemma single_kept_dispose_resources w : kept w (dispose_resources w).
Proof. kept_block w dispose_resources. Qed.

Lemma single_kept_cleanup w : kept w (cleanup w).
Proof.
  unfold cleanup.
  eapply single_kept_trans; [|apply single_kept_dispose_resources].
  eapply single_kept_trans; [|apply single_kept_remove_stats].
  eapply single_kept_trans; [|apply single_kept_remove_renderer].
  eapply single_kept_trans; [|apply single_kept_cancel_frame].
  apply single_kept_stop_listening.
Qed.

(** The cleanup of a running loop, field by field. *)
Lemma single_removeChild_absent n l :
  contains l n = false -> removeChild n l = l.
Proof.
  unfold contains, removeChild. induction l as [|k l IH]; [reflexivity|].
  cbn. destruct (DomNode_eqb n k); [discriminate|]. cbn.
  intro H. now rewrite IH.
Qed.

Ltac simpl_world :=
  cbn -[contains removeChild truthy cancelAnimationFrame stop_listening
        cancel_frame remove_renderer remove_stats dispose_resources].

Lemma single_cleanup_spec w :
  looping w ->
  resize_listener (host (cleanup w)) = false /\
  raf_pending (host (cleanup w)) = [] /\
  renderer_disposed (renderer (cleanup w)) = true /\
  controls_disposed (controls (cleanup w)) = true /\
  mount_children (host (cleanup w)) =
    match mountRef_current (host w) with
    | Current => removeChild RendererDomElement (mount_children (host w))
    | Null => mount_children (host w)
    end /\
  stats_children (host (cleanup w)) =
    match statsRef_current (host w) with
    | Current => removeChild StatsDom (stats_children (host w))
    | Null => stats_children (host w)
    end.
Proof.
  open_world w. unfold looping. simpl_world. intros (Hpos & -> & ->).
  assert (T : truthy rc = true).
  { unfold truthy. destruct (rc =? 0) eqn:Z0; [apply Z.eqb_eq in Z0; lia|].
    reflexivity. }
  pose proof (single_removeChild_absent RendererDomElement mc) as R1.
  pose proof (single_removeChild_absent StatsDom stc) as R2.
  unfold cleanup. cbv zeta.
  unfold stop_listening. simpl_world.
  unfold cancel_frame. simpl_world. rewrite T.
  unfold cancelAnimationFrame. simpl_world. rewrite Z.eqb_refl. simpl_world.
  unfold remove_renderer. simpl_world.
  destruct mr; [|destruct (contains mc RendererDomElement) eqn:C1];
    simpl_world;
    (unfold remove_stats; simpl_world;
     destruct sr; [|destruct (contains stc StatsDom) eqn:C2];
     simpl_world; unfold dispose_resources; simpl_world;
     destruct (map ma); simpl_world;
     rewrite ?R1, ?R2 by (assumption || reflexivity);
     repeat split; reflexivity).
Qed.


(** *** The load calls *)

Lemma single_step_calls ev w : calls (step ev w) = calls w.
Proof.
  destruct ev as [|iw ih cw ch|call a|call e'| |].
  - cbn [step]. apply single_frame_keeps. intros k w'. reflexivity.
  - open_world w. cbn [step]. open_callbacks. split_ifs; reflexivity.
  - open_world w. cbn [step calls].
    destruct (nth_error cs call) as [c|]; [|reflexivity].
    destruct (onLoad c) as [cb|]; [|reflexivity].
    destruct cb, a; open_callbacks; reflexivity.
  - open_world w. cbn [step calls].
    destruct (nth_error cs call) as [c|]; [|reflexivity].
    destruct (onError c) as [cb|]; [|reflexivity].
    destruct cb; open_callbacks; reflexivity.
  - reflexivity.
  - apply single_kept_cleanup.
Qed.

Lemma single_effect_start h w :
  effect h = Some w ->
  calls w = mounted_calls /\ renderer_disposed (renderer w) = false.
Proof.
  unfold effect.
  destruct (mountRef_current h), (statsRef_current h); try discriminate.
  intro E. injection E as <-. split; reflexivity.
Qed.

Lemma single_run_calls h w0 :
  effect h = Some w0 -> forall evs, calls (run evs w0) = mounted_calls.
Proof.
  intros E evs. induction evs as [|ev evs IH] using rev_ind.
  - apply (single_effect_start _ _ E).
  - now rewrite single_run_snoc, single_step_calls.
Qed.

(** *** The render loop *)

Lemma single_quiet_loop_view ev w :
  quiet ev = true -> loop_view (step ev w) = loop_view w.
Proof.
  open_world w.
  destruct ev as [|iw ih cw ch|call a|call e'| |]; try discriminate; intros _.
  - cbn [step]. open_callbacks. split_ifs; reflexivity.
  - cbn [step calls]. destruct (nth_error cs call) as [c|]; [|reflexivity].
    destruct (onLoad c) as [cb|]; [|reflexivity].
    destruct cb, a; open_callbacks; reflexivity.
  - cbn [step calls]. destruct (nth_error cs call) as [c|]; [|reflexivity].
    destruct (onError c) as [cb|]; [|reflexivity].
    destruct cb; open_callbacks; reflexivity.
  - reflexivity.
Qed.

Lemma single_effect_looping h w :
  host_ok h -> effect h = Some w ->
  looping w /\ frames_rendered (renderer w) = 1%nat /\
  raf_counter (host w) = raf_counter h + 1.
Proof.
  intros (Hp & Hc). unfold effect.
  destruct (mountRef_current h) eqn:M, (statsRef_current h) eqn:S;
    try discriminate.
  intro E. injection E as <-. destruct h. cbn in *. subst.
  repeat split; cbn; lia.
Qed.

Lemma single_frame_looping w :
  looping w ->
  looping (run_frame w) /\
  frames_rendered (renderer (run_frame w)) = S (frames_rendered (renderer w)).
Proof.
  open_world w.
  unfold looping, run_frame. cbn. intros (Hpos & -> & ->).
  cbn. rewrite Z.eqb_refl. cbn.
  repeat split; lia.
Qed.

Lemma single_step_stopped ev w :
  stopped w ->
  stopped (step ev w) /\
  frames_rendered (renderer (step ev w)) = frames_rendered (renderer w).
Proof.
  intro S. destruct (quiet ev) eqn:Q.
  - pose proof (single_quiet_loop_view ev w Q) as V. unfold loop_view in V.
    injection V as _ Hp _ Hf. unfold stopped. now rewrite Hp.
  - destruct ev; try discriminate.
    + unfold stopped in *. cbn [step]. unfold run_frame. rewrite S. cbn.
      now split.
    + cbn [step]. destruct (single_kept_cleanup w) as (_ & F & P).
      split; [exact (P S) | exact F].
Qed.

Lemma single_run_stopped evs w :
  stopped w ->
  stopped (run evs w) /\
  frames_rendered (renderer (run evs w)) = frames_rendered (renderer w).
Proof.
  revert w. induction evs as [|ev evs IH]; intros w S; [now split|].
  cbn [run fold_left]. destruct (single_step_stopped ev w S) as (S' & F).
  destruct (IH _ S') as (S'' & F'). fold (run evs (step ev w)).
  split; [exact S''|congruence].
Qed.

Lemma single_run_looping h w0 :
  host_ok h -> effect h = Some w0 ->
  forall pre, ~ In Unmount pre ->
    looping (run pre w0) /\
    frames_rendered (renderer (run pre w0)) = S (frames pre).
Proof.
  intros Hh E pre. induction pre as [|ev pre IH] using rev_ind; intro NU.
  - destruct (single_effect_looping _ _ Hh E) as (L & F & _). now split.
  - rewrite single_run_snoc. unfold frames. rewrite filter_app, length_app.
    assert (NU' : ~ In Unmount pre) by (intro; apply NU, in_or_app; now left).
    destruct (IH NU') as (L & F). fold (frames pre).
    destruct (quiet ev) eqn:Q.
    + pose proof (single_quiet_loop_view ev (run pre w0) Q) as V.
      unfold loop_view in V.
      injection V as Hc Hp Hi Hf. unfold looping.
      rewrite Hc, Hp, Hi, Hf. split; [exact L|].
      rewrite F. destruct ev; try discriminate; cbn; lia.
    + destruct ev; try discriminate.
      * cbn [step]. destruct (single_frame_looping _ L) as (L' & F').
        split; [exact L'|]. rewrite F', F. cbn. lia.
      * exfalso. apply NU, in_or_app. right. now left.
Qed.

(** The loop over a whole life: it renders once per frame until the
    cleanup and never again. *)
Lemma single_render_loop h w0 :
  host_ok h -> effect h = Some w0 -> render_loop_runs_until_cleanup w0.
Proof.
  intros Hh E pre post NU.
  destruct (single_run_looping _ _ Hh E pre NU) as (L & F).
  split; [exact L|]. split; [exact F|].
  rewrite single_run_app.
  change (run (Unmount :: post) (run pre w0))
    with (run post (cleanup (run pre w0))).
  destruct (single_cleanup_spec _ L) as (_ & P & _).
  destruct (single_kept_cleanup (run pre w0)) as (_ & F' & _).
  destruct (single_run_stopped post _ P) as (S' & F'').
  split; [exact S'|congruence].
Qed.

(** *** The page around the loop *)

Lemma single_step_page_view ev w :
  ev <> Unmount -> ev <> RefsDetached ->
  page_view (step ev w) = page_view w.
Proof.
  intros NU ND.
  destruct ev as [|iw ih cw ch|call a|call e'| |]; try congruence.
  - cbn [step]. apply single_frame_keeps.
    intros k [[] ? ? ? ? ? ? ? ? ?]. reflexivity.
  - open_world w. cbn [step]. open_callbacks. split_ifs; reflexivity.
  - open_world w.
    cbn [step calls]. destruct (nth_error cs call) as [c|]; [|reflexivity].
    destruct (onLoad c) as [cb|]; [|reflexivity].
    destruct cb, a; open_callbacks; reflexivity.
  - open_world w.
    cbn [step calls]. destruct (nth_error cs call) as [c|]; [|reflexivity].
    destruct (onError c) as [cb|]; [|reflexivity].
    destruct cb; open_callbacks; reflexivity.
Qed.

Lemma single_run_page_view h w0 :
  effect h = Some w0 ->
  forall pre, ~ In Unmount pre ->
    page_view (run pre w0) =
    (true, [RendererDomElement], [StatsDom], ref_after pre, ref_after pre).
Proof.
  intros E pre. induction pre as [|ev pre IH] using rev_ind; intro NU.
  - revert E. unfold effect.
    destruct (mountRef_current h) eqn:M, (statsRef_current h) eqn:S;
      try discriminate.
    intro E. injection E as <-. destruct h. cbn in M, S. subst. reflexivity.
  - rewrite single_run_snoc.
    assert (NU' : ~ In Unmount pre) by (intro; apply NU, in_or_app; now left).
    assert (NE : ev <> Unmount)
      by (intros ->; apply NU, in_or_app; right; now left).
    specialize (IH NU').
    unfold ref_after, detached. rewrite existsb_app. cbn [existsb].
    rewrite orb_false_r. fold (detached pre).
    destruct ev; try congruence;
      try (rewrite single_step_page_view by congruence; rewrite IH;
           unfold ref_after; cbn [is_detach]; now rewrite orb_false_r).
    cbn [is_detach]. rewrite orb_true_r.
    unfold page_view in *. cbn. congruence.
Qed.

Lemma single_effect_guard h :
  effect h = None <->
  mountRef_current h = Null \/ statsRef_current h = Null.
Proof.
  unfold effect.
  destruct (mountRef_current h), (statsRef_current h); split;
    try discriminate; auto; intros [|]; discriminate.
Qed.

(** Mount and unmount. *)
Lemma single_lifecycle h w0 :
  host_ok h -> effect h = Some w0 ->
  constructed h w0 /\ cleanup_tears_down w0.
Proof.
  intros Hh E.
  pose proof (single_run_page_view _ _ E [] (fun x => x)) as V0.
  unfold page_view in V0. cbn [run fold_left] in V0.
  injection V0 as R M S _ _.
  destruct (single_effect_looping _ _ Hh E) as ((Hpos & Hp & Hi) & F & Hc).
  destruct (single_effect_start _ _ E) as (C & D).
  split.
  { unfold constructed.
    split; [exact M|]. split; [exact S|]. split; [exact R|].
    split; [exact D|]. split; [exact C|]. split.
    { rewrite C. repeat constructor; discriminate. }
    split; [now rewrite Hp, Hc|]. split; [now rewrite Hi, Hc|].
    exact F. }
  intros pre NU. rewrite single_run_snoc. cbn [step].
  destruct (single_run_looping _ _ Hh E pre NU) as (L & _).
  pose proof (single_run_page_view _ _ E pre NU) as V. unfold page_view in V.
  injection V as R' M' S' RM RS.
  destruct (single_cleanup_spec _ L) as (A1 & A2 & A3 & A4 & A5 & A6).
  rewrite RM, M' in A5. rewrite RS, S' in A6. unfold ref_after in A5, A6.
  split; [exact A1|]. split; [exact A2|]. split; [exact A3|].
  split; [exact A4|]. split.
  - intros D'. rewrite D' in A5, A6.
    unfold torn_down. rewrite A5, A6. cbn.
    repeat split; auto; intros [Q|[]]; discriminate.
  - intros D'. rewrite D' in A5, A6. now split.
Qed.

(** *** Failed model loads *)

Lemma single_failures h w0 :
  effect h = Some w0 -> failures_handled w0.
Proof.
  intros E pre e. cbn [step].
  rewrite (single_run_calls _ _ E pre). reflexivity.
Qed.

End SingleFacts.
(* ===================================================================== *)
(** ** The sidebar data *)
(* ===================================================================== *)

Section SidebarClaims.
Import Sidebar.

(** The literal has the type it is declared at: reading it as
    [SidebarItem[]] succeeds and gives [SidebarItemsData]. *)
Lemma SidebarItemsData_typed :
  match SidebarItemsLiteral with
  | JArr l => as_SidebarItems l = Some SidebarItemsData
  | _ => False
  end.
Proof. reflexivity. Qed.

Example SidebarItemsData_ids :
  List.map id (all_nodes SidebarItemsData) =
  [1; 2; 21; 211; 212; 22; 221; 222; 3; 223; 32; 321; 322; 5; 9].
Proof. reflexivity. Qed.

(** C3. In [SidebarItemsData] the ids of all nodes, at every nesting
    depth (top-level items, their [sub] items and the items below those),
    are pairwise distinct. *)
Theorem sidebar_ids_pairwise_distinct :
  NoDup (List.map id (all_nodes SidebarItemsData)).
Proof.
  rewrite SidebarItemsData_ids.
  repeat (apply NoDup_cons; [cbn; intuition lia|]). apply NoDup_nil.
Qed.

(** C8. In [SidebarItemsData] a node's path is the empty string if and
    only if the node has a [sub] list: every leaf has a non-empty path and
    every node with children has an empty one. *)
Theorem sidebar_path_empty_iff_children :
  Forall (fun it => path it = "" <-> sub it <> None)
         (all_nodes SidebarItemsData).
Proof.
  cbv [all_nodes SidebarItemsData flat_map nodes sub app].
  repeat constructor; cbn [path sub]; intro; congruence.
Qed.

(** The first node already has a key the spec does not name. *)
Lemma sidebar_node_has_module_id :
  ~ Forall only_spec_fields (objects SidebarItemsLiteral).
Proof.
  intro H. inversion H as [|o os Ho _]; subst.
  assert (I : In "module_id" spec_fields).
  { apply Ho. cbn. auto. }
  cbn in I. intuition discriminate.
Qed.

Lemma string_in_dec_true (k : string) (l : list string) :
  existsb (String.eqb k) l = true -> In k l.
Proof.
  intro H. apply existsb_exists in H. destruct H as (x & I & E).
  apply String.eqb_eq in E. now subst.
Qed.

Lemma covers_incl l m : covers l m = true -> incl l m.
Proof.
  unfold covers. intros H k I. rewrite forallb_forall in H.
  apply string_in_dec_true, H, I.
Qed.

Lemma distinct_NoDup l : distinct l = true -> NoDup l.
Proof.
  induction l as [|k r IH]; [constructor|]. cbn.
  intro H. apply andb_true_iff in H. destruct H as (N & D).
  constructor; [|auto]. intro I.
  assert (E : existsb (String.eqb k) r = true).
  { apply existsb_exists. exists k. split; [exact I|apply String.eqb_refl]. }
  rewrite E in N. discriminate.
Qed.

(** C6, amended. Every object of the literal has exactly the fields of
    [interface SidebarItem]: the five required ones (id, name, module_id,
    path, Icon), optionally sub, each once, and no others; read at the
    declared types it gives [SidebarItemsData], and following [sub]
    reaches every object. *)
Theorem sidebar_nodes_have_interface_fields :
  required_fields = ["id"; "name"; "module_id"; "path"; "Icon"] /\
  declared_fields = ["id"; "name"; "module_id"; "path"; "Icon"; "sub"] /\
  Forall (fun o => NoDup (keys o) /\
                   incl required_fields (keys o) /\
                   incl (keys o) declared_fields)
         (objects SidebarItemsLiteral) /\
  List.length (objects SidebarItemsLiteral) =
    List.length (all_nodes SidebarItemsData).
Proof.
  split; [reflexivity|]. split; [reflexivity|]. split; [|reflexivity].
  apply Forall_forall. intros o I.
  assert (H : forallb (fun o => distinct (keys o) &&
                                covers required_fields (keys o) &&
                                covers (keys o) declared_fields)
                      (objects SidebarItemsLiteral) = true)
    by (vm_compute; reflexivity).
  rewrite forallb_forall in H. specialize (H o I).
  apply andb_true_iff in H. destruct H as (H & C2).
  apply andb_true_iff in H. destruct H as (D & C1).
  split; [now apply distinct_NoDup|].
  split; now apply covers_incl.
Qed.

End SidebarClaims.
(* ===================================================================== *)
(** ** The viewer components *)
(* ===================================================================== *)

Lemma sample_page_ok : Host.host_ok Sample.page.
Proof. split; [reflexivity | cbn; lia]. Qed.

Section MultipleClaims.
Import Three Host LoadingMultipleAssets MultipleFacts.

(** C1. The five GLTF model loads of [LoadingMultipleAssets] (the SUV body
    and the four wheels) are coordinated only by [modelsLoaded]: in every
    trace in which the five loads settle in some order, each by its success
    or by its error callback, and with anything else happening in between,
    each completion adds exactly one to the counter, [loading] is still
    true before each of them and is true after every prefix exactly while
    the counter is below [totalModels = 5], and at the end the counter is 5
    and [loading] is false. *)
Theorem counter_coordinates_model_loads :
  forall h w0, effect h = Some w0 ->
  forall evs, Permutation (settled_calls evs) model_calls ->
    (forall pre ev post, evs = pre ++ ev :: post -> settles ev = true ->
       modelsLoaded (step ev (run pre w0)) = modelsLoaded (run pre w0) + 1 /\
       loading (run pre w0) = true /\
       loading (step ev (run pre w0)) =
         (modelsLoaded (step ev (run pre w0)) <? totalModels)) /\
    (forall pre post, evs = pre ++ post ->
       loading (run pre w0) = (modelsLoaded (run pre w0) <? totalModels)) /\
    modelsLoaded (run evs w0) = totalModels /\
    loading (run evs w0) = false.
Proof.
  intros h w0 E evs P.
  assert (N : settled evs = 5%nat).
  { rewrite <- multi_settled_calls_length. now rewrite (Permutation_length P). }
  split; [|split; [|split]].
  - intros pre ev post -> S.
    rewrite <- multi_run_snoc.
    destruct (multi_run_counter _ _ E pre) as (_ & Hm & Hl).
    destruct (multi_run_counter _ _ E (pre ++ [ev])) as (_ & Hm' & Hl').
    rewrite multi_settled_app in N.
    change (ev :: post) with ([ev] ++ post) in N.
    rewrite multi_settled_app, multi_settled_one, S in N.
    rewrite multi_settled_app, multi_settled_one, S in Hm'.
    split; [lia|]. split; [|exact Hl'].
    rewrite Hl, Hm. apply Z.ltb_lt. unfold totalModels. lia.
  - intros pre post _. apply (multi_run_counter _ _ E pre).
  - destruct (multi_run_counter _ _ E evs) as (_ & Hm & _).
    rewrite Hm, N. reflexivity.
  - destruct (multi_run_counter _ _ E evs) as (_ & Hm & Hl).
    rewrite Hl, Hm, N. reflexivity.
Qed.

Lemma racing_interleaves :
  Permutation (settled_calls Sample.racing) model_calls.
Proof.
  change (Permutation [3; 1; 5; 2; 4]%nat [1; 2; 3; 4; 5]%nat).
  apply Permutation_sym.
  apply (Permutation_cons_app [3] [5; 2; 4])%nat.
  apply (Permutation_cons_app [3; 5] [4])%nat.
  apply (Permutation_cons_app [] [5; 4])%nat.
  apply (Permutation_cons_app [5] [])%nat.
  apply Permutation_refl.
Qed.

Lemma counter_coordinates_model_loads_witness :
  exists w0, effect Sample.page = Some w0 /\
    modelsLoaded (run Sample.racing w0) = totalModels /\
    loading (run Sample.racing w0) = false.
Proof.
  eexists. split; [reflexivity|].
  apply (counter_coordinates_model_loads Sample.page _ eq_refl Sample.racing
           racing_interleaves).
Defined.

(** C9. In [LoadingMultipleAssets] the completion of the HDR environment
    load leaves [modelsLoaded] and [loading] unchanged. On success it
    changes only the scene's environment and background (and writes one
    console line); on failure only the error message and the background,
    which becomes the fallback colour (and writes one console line). So
    [loading] depends on the five GLTF model loads alone. *)
Theorem hdr_completion_leaves_counter_alone :
  forall h w0, effect h = Some w0 ->
  forall pre,
    (forall texture,
       step (LoadSucceeded 0 (TextureAsset texture)) (run pre w0) =
       mkWorld (console_log "HDR loaded successfully" (host (run pre w0)))
               (loading (run pre w0)) (error (run pre w0))
               (mkScene (scene_children (scene (run pre w0)))
                        (Some (lit texture))
                        (TextureBackground (lit texture)))
               (camera (run pre w0)) (renderer (run pre w0))
               (controls (run pre w0)) (stats (run pre w0))
               (modelsLoaded (run pre w0)) (animationFrameId (run pre w0))
               (calls (run pre w0))) /\
    (forall e,
       step (LoadFailed 0 e) (run pre w0) =
       mkWorld (console_error "Error loading HDR:" e (host (run pre w0)))
               (loading (run pre w0))
               (Some "Failed to load HDR environment. Using fallback.")
               (mkScene (scene_children (scene (run pre w0)))
                        (environment (scene (run pre w0)))
                        (ColorBackground 0x87ceeb))
               (camera (run pre w0)) (renderer (run pre w0))
               (controls (run pre w0)) (stats (run pre w0))
               (modelsLoaded (run pre w0)) (animationFrameId (run pre w0))
               (calls (run pre w0))) /\
    loading (run pre w0) = (Z.of_nat (settled pre) <? totalModels).
Proof.
  intros h w0 E pre.
  destruct (multi_run_counter _ _ E pre) as (Hc & Hm & Hl).
  split; [|split].
  - intro texture. cbn [step]. rewrite Hc at 1. reflexivity.
  - intro e. cbn [step]. rewrite Hc at 1. reflexivity.
  - now rewrite Hl, Hm.
Qed.

Lemma hdr_completion_leaves_counter_alone_witness :
  exists w0, effect Sample.page = Some w0 /\
    modelsLoaded (step (LoadFailed 0 "404") w0) = 0 /\
    loading (step (LoadFailed 0 "404") w0) = true.
Proof.
  eexists. split; [reflexivity|].
  destruct (hdr_completion_leaves_counter_alone Sample.page _ eq_refl [])
    as (_ & H & _).
  split; [ exact (f_equal modelsLoaded (H "404"))
         | exact (f_equal loading (H "404")) ].
Defined.

(** C10. In [LoadingMultipleAssets], for each of the four wheels (wheel
    [i + 1] is load call [2 + i] and uses entry [i] of [wheelPositions]),
    the successfully loaded wheel is added to the scene at exactly the
    position of its entry, and it is turned by pi around the Y axis if and
    only if the entry's [rotate] flag is true; the flag is true precisely
    for the entries with x = 0.65, of which there are two. *)
Theorem wheel_placed_at_its_entry :
  forall h w0, effect h = Some w0 ->
  forall pre i pos gltf,
    nth_error wheelPositions i = Some pos ->
    (exists wheel,
      scene_children
        (scene (step (LoadSucceeded (2 + i) (GltfAsset gltf)) (run pre w0))) =
        scene_children (scene (run pre w0)) ++ [wheel] /\
      position wheel = vec3 (Wheel.x pos) (Wheel.y pos) (Wheel.z pos) /\
      turns wheel =
        turns (gltf_scene gltf) ++
        (if Wheel.rotate pos then [rotateY_by Math_PI] else []) /\
      kind wheel = kind (gltf_scene gltf) /\
      children wheel = children (gltf_scene gltf)) /\
    (Wheel.rotate pos = true <-> Wheel.x pos = 0.65%Q) /\
    List.map Wheel.rotate wheelPositions = [false; true; false; true] /\
    console
      (host (step (LoadSucceeded (2 + i) (GltfAsset gltf)) (run pre w0))) =
      console (host (run pre w0)) ++
      [line LogLevel ("Wheel " ++ decimal (i + 1) ++ " loaded")%string None].
Proof.
  intros h w0 E pre i pos gltf Hpos.
  destruct (multi_run_counter _ _ E pre) as (Hc & _).
  generalize dependent (run pre w0). intros w Hc.
  destruct (multi_wheel_call _ _ Hpos) as (Hcall & Hrot).
  assert (Hstep : step (LoadSucceeded (2 + i) (GltfAsset gltf)) w =
                  wheel_onLoad pos i gltf w).
  { cbn [step]. rewrite Hc, Hcall. reflexivity. }
  rewrite Hstep. unfold wheel_onLoad.
  rewrite multi_scene_model_settled, multi_host_model_settled.
  cbn [scene host with_scene with_host scene_add scene_children console
       console_log with_console].
  split; [|split; [exact Hrot | split; reflexivity]].
  eexists. split; [reflexivity|].
  destruct (Wheel.rotate pos);
    cbn [position turns kind children rotateY position_set];
    rewrite ?app_nil_r; repeat split; reflexivity.
Qed.

Lemma wheel_placed_at_its_entry_witness :
  exists w0, effect Sample.page = Some w0 /\
  exists wheel,
    scene_children
      (scene (step (LoadSucceeded 3 (GltfAsset Sample.suv)) w0)) =
      scene_children (scene w0) ++ [wheel] /\
    position wheel = vec3 0.65 0.2 (-0.77) /\
    turns wheel = [rotateY_by Math_PI].
Proof.
  eexists. split; [reflexivity|].
  destruct (wheel_placed_at_its_entry Sample.page _ eq_refl [] 1%nat _
              Sample.suv eq_refl)
    as ((wheel & Hs & Hp & Ht & _) & _).
  exists wheel. split; [exact Hs|]. split; [exact Hp | exact Ht].
Defined.

End MultipleClaims.

Section ViewerClaims.
Import Three Host.

(** C4. In both viewer components the render loop is a single per-frame
    callback: from the mount on exactly one animation-frame request is
    pending, and the scene has been rendered once at mount and once per
    frame. The cleanup of the mount effect cancels the pending request, so
    that after it, whatever happens, no request is pending and no further
    frame is rendered. *)
Theorem render_loop_cancelled_on_teardown :
  forall h, host_ok h ->
    (forall w0, LoadingMultipleAssets.effect h = Some w0 ->
       LoadingMultipleAssets.render_loop_runs_until_cleanup w0) /\
    (forall w0, LoadingAssets.effect h = Some w0 ->
       LoadingAssets.render_loop_runs_until_cleanup w0).
Proof.
  intros h Hh. split; intros w0 E.
  - exact (MultipleFacts.multi_render_loop h w0 Hh E).
  - exact (SingleFacts.single_render_loop h w0 Hh E).
Qed.

(** Two frames, then the cleanup, then two more frames and a late load:
    three renders in all (one at mount, two for the frames before the
    cleanup). *)
Lemma render_loop_cancelled_on_teardown_witness :
  (exists w0, LoadingMultipleAssets.effect Sample.page = Some w0 /\
     frames_rendered
       (LoadingMultipleAssets.renderer
          (LoadingMultipleAssets.run
             ([LoadingMultipleAssets.AnimationFrame;
               LoadingMultipleAssets.AnimationFrame] ++
              LoadingMultipleAssets.Unmount ::
              [LoadingMultipleAssets.AnimationFrame;
               LoadingMultipleAssets.LoadFailed 1 "late";
               LoadingMultipleAssets.AnimationFrame]) w0)) = 3%nat) /\
  (exists w0, LoadingAssets.effect Sample.page = Some w0 /\
     frames_rendered
       (LoadingAssets.renderer
          (LoadingAssets.run
             ([LoadingAssets.AnimationFrame; LoadingAssets.AnimationFrame] ++
              LoadingAssets.Unmount ::
              [LoadingAssets.AnimationFrame; LoadingAssets.AnimationFrame])
             w0)) = 3%nat).
Proof.
  split; eexists; (split; [reflexivity|]).
  - refine (proj2 (proj2 (proj2
      (proj1 (render_loop_cancelled_on_teardown Sample.page sample_page_ok)
         _ eq_refl _ _ _)))).
    cbn. intros [H|[H|[]]]; discriminate H.
  - refine (proj2 (proj2 (proj2
      (proj2 (render_loop_cancelled_on_teardown Sample.page sample_page_ok)
         _ eq_refl _ _ _)))).
    cbn. intros [H|[H|[]]]; discriminate H.
Defined.

(** Against C5 as stated: the unmount does not always end in the full
    teardown. When React has cleared the refs before the cleanup runs, the
    cleanup skips both [removeChild] calls and the canvas and the stats
    node stay in their containers; and when a ref is not set at mount the
    effect returns at once. *)
Lemma cleanup_skips_dom_when_refs_cleared :
  (exists w0, LoadingMultipleAssets.effect Sample.page = Some w0 /\
     In RendererDomElement
        (mount_children
           (LoadingMultipleAssets.host
              (LoadingMultipleAssets.run
                 [LoadingMultipleAssets.RefsDetached;
                  LoadingMultipleAssets.Unmount] w0))) /\
     ~ LoadingMultipleAssets.torn_down
         (LoadingMultipleAssets.run
            [LoadingMultipleAssets.RefsDetached;
             LoadingMultipleAssets.Unmount] w0)) /\
  (exists w0, LoadingAssets.effect Sample.page = Some w0 /\
     In RendererDomElement
        (mount_children
           (LoadingAssets.host
              (LoadingAssets.run
                 [LoadingAssets.RefsDetached; LoadingAssets.Unmount] w0))) /\
     ~ LoadingAssets.torn_down
         (LoadingAssets.run
            [LoadingAssets.RefsDetached; LoadingAssets.Unmount] w0)) /\
  LoadingMultipleAssets.effect Sample.page_without_mount = None /\
  LoadingAssets.effect Sample.page_without_mount = None.
Proof.
  split; [|split; [|split; reflexivity]].
  - eexists. split; [reflexivity|]. split.
    + cbn. left. reflexivity.
    + intros (_ & _ & N & _). apply N. cbn. left. reflexivity.
  - eexists. split; [reflexivity|]. split.
    + cbn. left. reflexivity.
    + intros (_ & _ & N & _). apply N. cbn. left. reflexivity.
Qed.

(** C5, amended. Each viewer component, mounted with both container refs
    set (with a ref unset the effect returns at once), constructs its
    rendering context: the canvas and the stats node are the content of
    their containers, the resize listener is registered, every load call is
    issued with a success and an error callback, and the render loop has
    started. Its cleanup removes the resize listener, cancels the frame
    request and disposes the renderer and the controls; it removes the two
    DOM nodes when the refs are still set, and leaves them in place when
    React has cleared the refs before. *)
Theorem viewer_mounts_and_tears_down :
  forall h, host_ok h ->
    ((LoadingMultipleAssets.effect h = None <->
        mountRef_current h = Null \/ statsRef_current h = Null) /\
     forall w0, LoadingMultipleAssets.effect h = Some w0 ->
       LoadingMultipleAssets.constructed h w0 /\
       LoadingMultipleAssets.cleanup_tears_down w0) /\
    ((LoadingAssets.effect h = None <->
        mountRef_current h = Null \/ statsRef_current h = Null) /\
     forall w0, LoadingAssets.effect h = Some w0 ->
       LoadingAssets.constructed h w0 /\
       LoadingAssets.cleanup_tears_down w0).
Proof.
  intros h Hh. split; (split; [|intros w0 E]).
  - apply MultipleFacts.multi_effect_guard.
  - exact (MultipleFacts.multi_lifecycle h w0 Hh E).
  - apply SingleFacts.single_effect_guard.
  - exact (SingleFacts.single_lifecycle h w0 Hh E).
Qed.

Lemma viewer_mounts_and_tears_down_witness :
  (exists w0, LoadingMultipleAssets.effect Sample.page = Some w0 /\
     LoadingMultipleAssets.constructed Sample.page w0 /\
     LoadingMultipleAssets.torn_down
       (LoadingMultipleAssets.run
          ([LoadingMultipleAssets.AnimationFrame] ++
           [LoadingMultipleAssets.Unmount]) w0)) /\
  (exists w0, LoadingAssets.effect Sample.page = Some w0 /\
     LoadingAssets.constructed Sample.page w0 /\
     LoadingAssets.torn_down
       (LoadingAssets.run
          ([LoadingAssets.AnimationFrame] ++ [LoadingAssets.Unmount]) w0)).
Proof.
  split; eexists; (split; [reflexivity|]).
  - destruct (proj2 (proj1 (viewer_mounts_and_tears_down Sample.page
                              sample_page_ok)) _ eq_refl) as (C & T).
    split; [exact C|].
    refine (proj1 (proj2 (proj2 (proj2 (proj2
              (T [LoadingMultipleAssets.AnimationFrame] _))))) eq_refl).
    cbn. intros [H|[]]; discriminate H.
  - destruct (proj2 (proj2 (viewer_mounts_and_tears_down Sample.page
                              sample_page_ok)) _ eq_refl) as (C & T).
    split; [exact C|].
    refine (proj1 (proj2 (proj2 (proj2 (proj2
              (T [LoadingAssets.AnimationFrame] _))))) eq_refl).
    cbn. intros [H|[]]; discriminate H.
Defined.

(** Against C2 as stated: the reaction to a failed model load is not
    limited to logging and a fallback object. In [LoadingMultipleAssets]
    the failed SUV body also sets the error message, and every failed model
    load also counts in [modelsLoaded]; a failed wheel gets no fallback
    object. *)
Lemma failed_body_also_sets_error_and_counts :
  exists w0, LoadingMultipleAssets.effect Sample.page = Some w0 /\
    LoadingMultipleAssets.error w0 = None /\
    LoadingMultipleAssets.error
      (LoadingMultipleAssets.step
         (LoadingMultipleAssets.LoadFailed 1 "404") w0) =
      Some "Failed to load SUV model. Using fallback." /\
    LoadingMultipleAssets.modelsLoaded
      (LoadingMultipleAssets.step
         (LoadingMultipleAssets.LoadFailed 1 "404") w0) = 1 /\
    ~ LoadingMultipleAssets.only_logs_and_falls_back w0
        (LoadingMultipleAssets.step
           (LoadingMultipleAssets.LoadFailed 1 "404") w0) /\
    LoadingMultipleAssets.scene
      (LoadingMultipleAssets.step
         (LoadingMultipleAssets.LoadFailed 2 "404") w0) =
      LoadingMultipleAssets.scene w0 /\
    ~ LoadingMultipleAssets.only_logs_and_falls_back w0
        (LoadingMultipleAssets.step
           (LoadingMultipleAssets.LoadFailed 2 "404") w0).
Proof.
  eexists. split; [reflexivity|].
  split; [reflexivity|]. split; [reflexivity|]. split; [reflexivity|].
  split; [|split; [reflexivity|]].
  - intros (lines & objects & E).
    apply (f_equal LoadingMultipleAssets.error) in E. discriminate E.
  - intros (lines & objects & E).
    apply (f_equal LoadingMultipleAssets.modelsLoaded) in E. discriminate E.
Qed.

(** C2, amended. The error callback of a model load logs the error and
    issues no further load. In [LoadingMultipleAssets] it also counts the
    load in [modelsLoaded] (clearing [loading] when the count reaches 5);
    for the SUV body it moreover sets the error message and adds the static
    fallback cube to the scene, logging that; for a wheel it leaves the
    scene and the error message as they are. In [LoadingAssets] it does
    nothing but log. Nothing else changes. *)
Theorem model_failure_is_logged_not_retried :
  forall h,
    (forall w0, LoadingMultipleAssets.effect h = Some w0 ->
       LoadingMultipleAssets.failures_handled w0) /\
    (forall w0, LoadingAssets.effect h = Some w0 ->
       LoadingAssets.failures_handled w0).
Proof.
  intro h. split; intros w0 E.
  - exact (MultipleFacts.multi_failures h w0 E).
  - exact (SingleFacts.single_failures h w0 E).
Qed.

Lemma model_failure_is_logged_not_retried_witness :
  (exists w0, LoadingMultipleAssets.effect Sample.page = Some w0 /\
     LoadingMultipleAssets.calls
       (LoadingMultipleAssets.step
          (LoadingMultipleAssets.LoadFailed 1 "404") w0) =
       LoadingMultipleAssets.calls w0 /\
     scene_children
       (LoadingMultipleAssets.scene
          (LoadingMultipleAssets.step
             (LoadingMultipleAssets.LoadFailed 1 "404") w0)) =
       scene_children (LoadingMultipleAssets.scene w0) ++
       [LoadingMultipleAssets.fallback_cube]) /\
  (exists w0, LoadingAssets.effect Sample.page = Some w0 /\
     LoadingAssets.calls
       (LoadingAssets.step (LoadingAssets.LoadFailed 2 "404") w0) =
       LoadingAssets.calls w0).
Proof.
  split; eexists; (split; [reflexivity|]).
  - pose proof (proj1 (proj1 (model_failure_is_logged_not_retried Sample.page)
                         _ eq_refl [] "404")) as H.
    split; [ exact (f_equal LoadingMultipleAssets.calls H)
           | exact (f_equal (fun w => scene_children
                               (LoadingMultipleAssets.scene w)) H) ].
  - pose proof (proj2 (model_failure_is_logged_not_retried Sample.page)
                  _ eq_refl [] "404") as H.
    exact (f_equal LoadingAssets.calls H).
Defined.

End ViewerClaims.

(* ===================================================================== *)
(** ** More about [LoadingMultipleAssets] *)
(* ===================================================================== *)

Module MultipleMore.
Import Three Host LoadingMultipleAssets MultipleFacts.

Lemma multi_spared_trans a b c : spared a b -> spared b c -> spared a c.
Proof.
  unfold spared.
  intros (A1 & A2 & A3 & A4 & A5 & A6 & A7 & A8)
         (B1 & B2 & B3 & B4 & B5 & B6 & B7 & B8).
  repeat split; try congruence. auto.
Qed.

Ltac spared_block w f :=
  open_world w; unfold spared, marks, balanced, f; cbn; split_ifs;
  repeat split; auto.

Lemma multi_spared_stop_listening w : spared w (stop_listening w).
Proof. spared_block w stop_listening. Qed.

Lemma multi_spared_cancel_frame w : spared w (cancel_frame w).
Proof. spared_block w cancel_frame. Qed.

Lemma multi_spared_remove_renderer w : spared w (remove_renderer w).
Proof. spared_block w remove_renderer. Qed.

Lemma multi_spared_remove_stats w : spared w (remove_stats w).
Proof. spared_block w remove_stats. Qed.

Lemma multi_spared_dispose_resources w : spared w (dispose_resources w).
Proof. spared_block w dispose_resources. Qed.

Lemma multi_spared_cleanup w : spared w (cleanup w).
Proof.
  unfold cleanup.
  eapply multi_spared_trans; [|apply multi_spared_dispose_resources].
  eapply multi_spared_trans; [|apply multi_spared_remove_stats].
  eapply multi_spared_trans; [|apply multi_spared_remove_renderer].
  eapply multi_spared_trans; [|apply multi_spared_cancel_frame].
  apply multi_spared_stop_listening.
Qed.

Lemma multi_cleanup_unlistens w : resize_listener (host (cleanup w)) = false.
Proof.
  unfold cleanup.
  assert (S : spared (stop_listening w)
                (dispose_resources
                   (remove_stats (remove_renderer
                      (cancel_frame (stop_listening w)))))).
  { eapply multi_spared_trans; [|apply multi_spared_dispose_resources].
    eapply multi_spared_trans; [|apply multi_spared_remove_stats].
    eapply multi_spared_trans; [|apply multi_spared_remove_renderer].
    apply multi_spared_cancel_frame. }
  destruct S as (_ & _ & _ & _ & _ & _ & _ & L). apply L. reflexivity.
Qed.

(** *** What the load callbacks leave in the scene, the error message and
    the console *)

Lemma multi_step_marks ev w :
  calls w = mounted_calls ->
  marks (step ev w) =
  (scene_children (scene w) ++ added_by ev,
   match message_of ev with Some m => Some m | None => error w end,
   console (host w) ++ lines_of ev).
Proof.
  intro Hc.
  destruct ev as [|iw ih cw ch|call a|call e| |];
    cbn [added_by message_of lines_of]; rewrite ?app_nil_r.
  - cbn [step]. rewrite (multi_frame_keeps marks); reflexivity.
  - open_world w. cbn [step]. open_callbacks. split_ifs; reflexivity.
  - cbn [step]. rewrite Hc.
    do 6 (destruct call as [|call];
          [ destruct a; cbn -[decimal String.append marks];
            open_callbacks; unfold marks; cbn -[decimal String.append];
            split_ifs; rewrite ?app_nil_r, <- ?app_assoc; reflexivity | ]).
    destruct call, a; cbn; rewrite ?app_nil_r; reflexivity.
  - cbn [step]. rewrite Hc.
    do 6 (destruct call as [|call];
          [ cbn -[decimal String.append marks];
            open_callbacks; unfold marks; cbn -[decimal String.append];
            split_ifs; rewrite ?app_nil_r, <- ?app_assoc; reflexivity | ]).
    destruct call; cbn; rewrite ?app_nil_r; reflexivity.
  - reflexivity.
  - cbn [step]. apply multi_spared_cleanup.
Qed.

Lemma multi_effect_marks h w0 :
  effect h = Some w0 -> marks w0 = (initial_objects, None, console h).
Proof.
  unfold effect.
  destruct (mountRef_current h), (statsRef_current h); try discriminate.
  intro E. injection E as <-. destruct h. reflexivity.
Qed.

Lemma multi_last_message_snoc evs ev :
  last_message (evs ++ [ev]) =
  match message_of ev with Some m => Some m | None => last_message evs end.
Proof. unfold last_message. now rewrite fold_left_app. Qed.

Lemma multi_run_marks h w0 :
  effect h = Some w0 ->
  forall evs,
    marks (run evs w0) =
    (initial_objects ++ flat_map added_by evs, last_message evs,
     console h ++ flat_map lines_of evs).
Proof.
  intros E evs. induction evs as [|ev evs IH] using rev_ind.
  - cbn [run fold_left flat_map]. rewrite !app_nil_r.
    apply (multi_effect_marks _ _ E).
  - rewrite multi_run_snoc.
    rewrite (multi_step_marks ev _ (proj1 (multi_run_counter _ _ E evs))).
    unfold marks in IH. injection IH as I1 I2 I3.
    rewrite I1, I2, I3, multi_last_message_snoc, !flat_map_app.
    cbn [flat_map]. rewrite !app_nil_r, !app_assoc. reflexivity.
Qed.

Lemma multi_last_message_cases evs :
  last_message evs = None \/
  last_message evs = Some "Failed to load HDR environment. Using fallback." \/
  last_message evs = Some "Failed to load SUV model. Using fallback.".
Proof.
  induction evs as [|ev evs IH] using rev_ind; [now left|].
  rewrite multi_last_message_snoc.
  destruct ev as [| | |call e| |]; cbn [message_of]; try exact IH.
  destruct call as [|[|call]]; auto.
Qed.


(** *** The resize listener *)

Lemma multi_step_unlistening ev w :
  resize_listener (host w) = false ->
  resize_listener (host (step ev w)) = false.
Proof.
  intro L. destruct ev as [|iw ih cw ch|call a|call e| |].
  - pose proof (multi_step_page_view AnimationFrame w
                  ltac:(discriminate) ltac:(discriminate)) as V.
    unfold page_view in V. injection V as V1 _ _ _ _.
    exact (eq_trans V1 L).
  - pose proof (multi_step_page_view (WindowResize iw ih cw ch) w
                  ltac:(discriminate) ltac:(discriminate)) as V.
    unfold page_view in V. injection V as V1 _ _ _ _.
    exact (eq_trans V1 L).
  - pose proof (multi_step_page_view (LoadSucceeded call a) w
                  ltac:(discriminate) ltac:(discriminate)) as V.
    unfold page_view in V. injection V as V1 _ _ _ _.
    exact (eq_trans V1 L).
  - pose proof (multi_step_page_view (LoadFailed call e) w
                  ltac:(discriminate) ltac:(discriminate)) as V.
    unfold page_view in V. injection V as V1 _ _ _ _.
    exact (eq_trans V1 L).
  - exact L.
  - apply multi_cleanup_unlistens.
Qed.

Lemma multi_run_unlistening evs w0 :
  In Unmount evs -> resize_listener (host (run evs w0)) = false.
Proof.
  induction evs as [|ev evs IH] using rev_ind; [intros []|].
  intro I. rewrite multi_run_snoc. apply in_app_or in I.
  destruct I as [I|[->|[]]].
  - apply multi_step_unlistening, IH, I.
  - apply multi_cleanup_unlistens.
Qed.

Lemma multi_resize_heard iw ih cw ch w :
  resize_listener (host w) = true ->
  camera (step (WindowResize iw ih cw ch) w) =
    mkCamera (fov (camera w)) (ratio iw ih) (near (camera w))
             (far (camera w)) (camera_position (camera w))
             (S (projection_updates (camera w))) /\
  renderer (step (WindowResize iw ih cw ch) w) = setSize iw ih (renderer w).
Proof.
  open_world w. cbn. intros ->. split; reflexivity.
Qed.

Lemma multi_resize_unheard iw ih cw ch w :
  resize_listener (host w) = false ->
  camera (step (WindowResize iw ih cw ch) w) = camera w /\
  renderer (step (WindowResize iw ih cw ch) w) = renderer w.
Proof.
  open_world w. cbn. intros ->. split; reflexivity.
Qed.

(** *** The work of a frame *)

Lemma multi_step_balanced ev w : balanced (step ev w) = balanced w.
Proof.
  destruct ev as [|iw ih cw ch|call a|call e'| |].
  - cbn [step]. apply multi_frame_keeps. intros k w'. open_world w'.
    reflexivity.
  - open_world w. cbn [step]. open_callbacks. split_ifs; reflexivity.
  - open_world w. cbn [step calls].
    destruct (nth_error cs call) as [c|]; [|reflexivity].
    destruct (onLoad c) as [cb|]; [|reflexivity].
    destruct cb, a; open_callbacks; split_ifs; reflexivity.
  - open_world w. cbn [step calls].
    destruct (nth_error cs call) as [c|]; [|reflexivity].
    destruct (onError c) as [cb|]; [|reflexivity].
    destruct cb; open_callbacks; split_ifs; reflexivity.
  - reflexivity.
  - cbn [step]. apply multi_spared_cleanup.
Qed.

Lemma multi_run_balanced h w0 :
  effect h = Some w0 -> forall evs, balanced (run evs w0) = true.
Proof.
  intros E evs. induction evs as [|ev evs IH] using rev_ind.
  - revert E. unfold effect.
    destruct (mountRef_current h), (statsRef_current h); try discriminate.
    intro E. injection E as <-. reflexivity.
  - now rewrite multi_run_snoc, multi_step_balanced.
Qed.

(** *** Mounting again *)

Lemma multi_remount h w0 :
  host_ok h -> effect h = Some w0 ->
  forall pre, ~ In Unmount pre -> detached pre = false ->
    host_ok (host (run (pre ++ [Unmount]) w0)) /\
    exists w1,
      effect (host (run (pre ++ [Unmount]) w0)) = Some w1 /\
      constructed (host (run (pre ++ [Unmount]) w0)) w1 /\
      cleanup_tears_down w1.
Proof.
  intros Hh E pre NU D.
  destruct (multi_lifecycle _ _ Hh E) as (_ & T).
  destruct (T pre NU) as (_ & P & _).
  destruct (multi_run_looping _ _ Hh E pre NU) as ((Hpos & _) & _).
  pose proof (multi_run_page_view _ _ E pre NU) as V. unfold page_view in V.
  injection V as _ _ _ RM RS. unfold ref_after in RM, RS.
  rewrite D in RM, RS.
  assert (S : spared (run pre w0) (run (pre ++ [Unmount]) w0)).
  { rewrite multi_run_snoc. apply multi_spared_cleanup. }
  destruct S as (_ & _ & _ & _ & Sc & Sm & Ss & _).
  assert (Ok : host_ok (host (run (pre ++ [Unmount]) w0))).
  { split; [exact P|]. rewrite Sc. lia. }
  split; [exact Ok|].
  destruct (effect (host (run (pre ++ [Unmount]) w0))) as [w1|] eqn:E1.
  - exists w1. split; [reflexivity|]. apply (multi_lifecycle _ _ Ok E1).
  - apply multi_effect_guard in E1. destruct E1 as [N|N]; congruence.
Qed.

End MultipleMore.

Section MultipleExtras.
Import Three Host LoadingMultipleAssets MultipleFacts MultipleMore.

(** The scene of [LoadingMultipleAssets] holds the two lights and the grid
    of the mount effect, followed by one object per successfully loaded
    model (the body as delivered, a wheel placed at its entry) and one
    fallback cube per failed body load, in the order the loads settled.
    Nothing is ever removed from it, not even by the cleanup. *)
Theorem scene_grows_in_arrival_order :
  forall h w0, effect h = Some w0 ->
  forall pre post,
    scene_children (scene (run pre w0)) =
      initial_objects ++ flat_map added_by pre /\
    scene_children (scene (run (pre ++ post) w0)) =
      scene_children (scene (run pre w0)) ++ flat_map added_by post.
Proof.
  intros h w0 E pre post.
  pose proof (f_equal (fun m => fst (fst m)) (multi_run_marks _ _ E pre))
    as S1.
  pose proof (f_equal (fun m => fst (fst m))
                (multi_run_marks _ _ E (pre ++ post))) as S2.
  cbn [marks fst] in S1, S2.
  split; [exact S1|]. now rewrite S2, S1, flat_map_app, app_assoc.
Qed.

Lemma scene_grows_in_arrival_order_witness :
  exists w0, effect Sample.page = Some w0 /\
    scene_children (scene (run Sample.racing w0)) =
      initial_objects ++
      [ gltf_scene Sample.suv;
        placed (Wheel.at_ 0.65 0.2 0.57 true) Sample.suv;
        placed (Wheel.at_ (-0.65) 0.2 0.57 false) Sample.suv ].
Proof.
  eexists. split; [reflexivity|].
  exact (proj1 (scene_grows_in_arrival_order Sample.page _ eq_refl
                  Sample.racing [])).
Defined.

(** The error message of [LoadingMultipleAssets] is the message of the
    most recent failure of the HDR load or of the body load, whichever came
    last; wheel failures never set it, and once set it is never cleared. *)
Theorem error_message_is_of_last_failure :
  forall h w0, effect h = Some w0 ->
  forall pre post,
    error (run pre w0) = last_message pre /\
    (error (run pre w0) <> None -> error (run (pre ++ post) w0) <> None).
Proof.
  intros h w0 E pre post.
  assert (K : forall evs, error (run evs w0) = last_message evs).
  { intro evs.
    exact (f_equal (fun m => snd (fst m)) (multi_run_marks _ _ E evs)). }
  split; [apply K|]. rewrite !K. intro N.
  induction post as [|ev post IH] using rev_ind; [now rewrite app_nil_r|].
  rewrite app_assoc, multi_last_message_snoc.
  destruct (message_of ev); [discriminate|exact IH].
Qed.

Lemma error_message_is_of_last_failure_witness :
  exists w0, effect Sample.page = Some w0 /\
    error (run [LoadFailed 1 "404"; LoadFailed 3 "404"; LoadFailed 0 "404";
                LoadFailed 4 "404"] w0) =
      Some "Failed to load HDR environment. Using fallback.".
Proof.
  eexists. split; [reflexivity|].
  exact (proj1 (error_message_is_of_last_failure Sample.page _ eq_refl
                  [LoadFailed 1 "404"; LoadFailed 3 "404"; LoadFailed 0 "404";
                   LoadFailed 4 "404"] [])).
Defined.

(** The console of [LoadingMultipleAssets] receives, in arrival order, one
    line per settled load (two for a failed body: the error and the
    fallback notice), and nothing else: frames, resizes and the cleanup
    write nothing. *)
Theorem console_has_one_entry_per_completion :
  forall h w0, effect h = Some w0 ->
  forall evs,
    console (host (run evs w0)) = console h ++ flat_map lines_of evs.
Proof.
  intros h w0 E evs.
  exact (f_equal snd (multi_run_marks _ _ E evs)).
Qed.

Lemma console_has_one_entry_per_completion_witness :
  exists w0, effect Sample.page = Some w0 /\
    console (host (run [AnimationFrame; LoadFailed 1 "404"; Unmount;
                        LoadSucceeded 2 (GltfAsset Sample.suv)] w0)) =
      [ line ErrorLevel "Error loading SUV body:" (Some "404");
        line LogLevel "Created fallback cube" None;
        line LogLevel "Wheel 1 loaded" None ].
Proof.
  eexists. split; [reflexivity|].
  exact (console_has_one_entry_per_completion Sample.page _ eq_refl
           [AnimationFrame; LoadFailed 1 "404"; Unmount;
            LoadSucceeded 2 (GltfAsset Sample.suv)]).
Defined.

(** What [LoadingMultipleAssets] renders follows the trace: the loading
    overlay is shown exactly while fewer than five model loads have
    settled, the warning banner shows the message of the last HDR or body
    failure (none before the first), and the two containers are always
    there. *)
Theorem view_follows_the_loads :
  forall h w0, effect h = Some w0 ->
  forall evs,
    view (run evs w0) =
      (if (settled evs <? 5)%nat
       then [LoadingOverlay "Loading 3D assets..."] else []) ++
      match last_message evs with
      | Some m => [WarningBanner ("Warning: " ++ m)%string]
      | None => []
      end ++
      [MountContainer; StatsContainer].
Proof.
  intros h w0 E evs. unfold view, rendered.
  destruct (multi_run_counter _ _ E evs) as (_ & Hm & Hl).
  rewrite Hl, Hm.
  pose proof (f_equal (fun m => snd (fst m)) (multi_run_marks _ _ E evs))
    as He.
  cbn [marks fst snd] in He. rewrite He.
  replace (Z.of_nat (settled evs) <? totalModels)
    with (settled evs <? 5)%nat.
  - destruct (multi_last_message_cases evs) as [->|[->| ->]]; reflexivity.
  - unfold totalModels.
    destruct (settled evs <? 5)%nat eqn:L; symmetry.
    + apply Nat.ltb_lt in L. apply Z.ltb_lt. lia.
    + apply Nat.ltb_ge in L. apply Z.ltb_ge. lia.
Qed.

Lemma view_follows_the_loads_witness :
  exists w0, effect Sample.page = Some w0 /\
    view (run Sample.racing w0) = [MountContainer; StatsContainer] /\
    view (run [LoadFailed 1 "404"] w0) =
      [ LoadingOverlay "Loading 3D assets...";
        WarningBanner "Warning: Failed to load SUV model. Using fallback.";
        MountContainer; StatsContainer ].
Proof.
  eexists. split; [reflexivity|]. split.
  - exact (view_follows_the_loads Sample.page _ eq_refl Sample.racing).
  - exact (view_follows_the_loads Sample.page _ eq_refl [LoadFailed 1 "404"]).
Defined.

(** In [LoadingMultipleAssets] a window resize before the cleanup sets the
    camera's aspect to the new inner width over the new inner height,
    updates the projection matrix once and resizes the renderer to the new
    inner size, leaving the rest of the camera as it was; after the cleanup
    a resize changes neither the camera nor the renderer. *)
Theorem window_resize_followed_until_cleanup :
  forall h w0, effect h = Some w0 ->
  forall pre iw ih cw ch,
    (~ In Unmount pre ->
       camera (step (WindowResize iw ih cw ch) (run pre w0)) =
         mkCamera (fov (camera (run pre w0))) (ratio iw ih)
                  (near (camera (run pre w0))) (far (camera (run pre w0)))
                  (camera_position (camera (run pre w0)))
                  (S (projection_updates (camera (run pre w0)))) /\
       renderer (step (WindowResize iw ih cw ch) (run pre w0)) =
         setSize iw ih (renderer (run pre w0))) /\
    (In Unmount pre ->
       camera (step (WindowResize iw ih cw ch) (run pre w0)) =
         camera (run pre w0) /\
       renderer (step (WindowResize iw ih cw ch) (run pre w0)) =
         renderer (run pre w0)).
Proof.
  intros h w0 E pre iw ih cw ch. split; intro U.
  - apply multi_resize_heard.
    exact (f_equal (fun v => fst (fst (fst (fst v))))
             (multi_run_page_view _ _ E pre U)).
  - apply multi_resize_unheard. now apply multi_run_unlistening.
Qed.

Lemma window_resize_followed_until_cleanup_witness :
  exists w0, effect Sample.page = Some w0 /\
    aspect (camera (step (WindowResize 800 600 640 480)
                         (run [AnimationFrame] w0))) = ratio 800 600 /\
    aspect (camera (step (WindowResize 800 600 640 480)
                         (run [AnimationFrame; Unmount] w0))) =
      ratio 1280 720.
Proof.
  eexists. split; [reflexivity|].
  split.
  - refine (f_equal aspect
              (proj1 (proj1 (window_resize_followed_until_cleanup
                               Sample.page _ eq_refl [AnimationFrame]
                               800 600 640 480) _))).
    cbn. intros [H|[]]. discriminate H.
  - refine (f_equal aspect
              (proj1 (proj2 (window_resize_followed_until_cleanup
                               Sample.page _ eq_refl [AnimationFrame; Unmount]
                               800 600 640 480) _))).
    cbn. right. left. reflexivity.
Defined.

End MultipleExtras.

(* ===================================================================== *)
(** ** More about [LoadingAssets] *)
(* ===================================================================== *)

Module SingleMore.
Import Three Host LoadingAssets SingleFacts.

Lemma single_spared_trans a b c : spared a b -> spared b c -> spared a c.
Proof.
  unfold spared.
  intros (A1 & A2 & A3 & A4 & A5 & A6 & A7 & A8 & A9)
         (B1 & B2 & B3 & B4 & B5 & B6 & B7 & B8 & B9).
  repeat split; try congruence. auto.
Qed.

Ltac spared_block w f :=
  open_world w; unfold spared, marks, balanced, f; cbn; split_ifs;
  repeat split; auto.

Lemma single_spared_stop_listening w : spared w (stop_listening w).
Proof. spared_block w stop_listening. Qed.

Lemma single_spared_cancel_frame w : spared w (cancel_frame w).
Proof. spared_block w cancel_frame. Qed.

Lemma single_spared_remove_renderer w : spared w (remove_renderer w).
Proof. spared_block w remove_renderer. Qed.

Lemma single_spared_remove_stats w : spared w (remove_stats w).
Proof. spared_block w remove_stats. Qed.

Lemma single_spared_dispose_resources w : spared w (dispose_resources w).
Proof. spared_block w dispose_resources. Qed.

Lemma single_spared_cleanup w : spared w (cleanup w).
Proof.
  unfold cleanup.
  eapply single_spared_trans; [|apply single_spared_dispose_resources].
  eapply single_spared_trans; [|apply single_spared_remove_stats].
  eapply single_spared_trans; [|apply single_spared_remove_renderer].
  eapply single_spared_trans; [|apply single_spared_cancel_frame].
  apply single_spared_stop_listening.
Qed.

Lemma single_cleanup_unlistens w :
  resize_listener (host (cleanup w)) = false.
Proof.
  unfold cleanup.
  assert (S : spared (stop_listening w)
                (dispose_resources
                   (remove_stats (remove_renderer
                      (cancel_frame (stop_listening w)))))).
  { eapply single_spared_trans; [|apply single_spared_dispose_resources].
    eapply single_spared_trans; [|apply single_spared_remove_stats].
    eapply single_spared_trans; [|apply single_spared_remove_renderer].
    apply single_spared_cancel_frame. }
  destruct S as (_ & _ & _ & _ & _ & _ & _ & L & _). apply L. reflexivity.
Qed.

(** *** The load callbacks *)

Lemma single_step_success call a w :
  calls w = mounted_calls ->
  step (LoadSucceeded call a) w = deliver call a w.
Proof.
  intro Hc. cbn [step]. rewrite Hc.
  do 3 (destruct call as [|call]; [destruct a; reflexivity|]).
  destruct call, a; reflexivity.
Qed.

Lemma single_step_scene ev w :
  calls w = mounted_calls ->
  scene_children (scene (step ev w)) =
  scene_children (scene w) ++ added_by ev.
Proof.
  intro Hc.
  destruct ev as [|iw ih cw ch|call a|call e| |];
    cbn [added_by]; rewrite ?app_nil_r.
  - cbn [step].
    rewrite (single_frame_keeps (fun w => scene_children (scene w)));
      reflexivity.
  - open_world w. cbn [step]. open_callbacks. split_ifs; reflexivity.
  - rewrite (single_step_success _ _ _ Hc).
    do 3 (destruct call as [|call];
          [ destruct a; unfold deliver; open_callbacks;
            rewrite ?app_nil_r; reflexivity | ]).
    destruct call, a; cbn; rewrite ?app_nil_r; reflexivity.
  - cbn [step]. rewrite Hc.
    destruct call as [|[|[|[|call]]]]; reflexivity.
  - reflexivity.
  - cbn [step].
    exact (f_equal fst (proj1 (single_spared_cleanup w))).
Qed.

Lemma single_effect_marks h w0 :
  effect h = Some w0 -> marks w0 = (initial_objects, console h).
Proof.
  unfold effect.
  destruct (mountRef_current h) eqn:M, (statsRef_current h) eqn:S;
    try discriminate.
  intro E. injection E as <-. destruct h. cbn in M, S. subst. reflexivity.
Qed.

Lemma single_run_scene h w0 :
  effect h = Some w0 ->
  forall evs,
    scene_children (scene (run evs w0)) =
    initial_objects ++ flat_map added_by evs.
Proof.
  intros E evs. induction evs as [|ev evs IH] using rev_ind.
  - cbn [run fold_left flat_map]. rewrite app_nil_r.
    exact (f_equal fst (single_effect_marks _ _ E)).
  - rewrite single_run_snoc.
    rewrite (single_step_scene ev _ (single_run_calls _ _ E evs)).
    rewrite IH, flat_map_app. cbn [flat_map].
    rewrite app_nil_r, app_assoc. reflexivity.
Qed.

(** *** The console *)

(** What the console lines of a trace depend on: whether the listener is
    registered, and then whether the mount ref is cleared. *)
Lemma single_step_console (l c : bool) ev w :
  calls w = mounted_calls ->
  resize_listener (host w) = l ->
  (l = true -> mountRef_current (host w) = if c then Null else Current) ->
  console (host (step ev w)) = console (host w) ++ lines_at l c ev /\
  resize_listener (host (step ev w)) = l && negb (is_unmount ev) /\
  (l && negb (is_unmount ev) = true ->
     mountRef_current (host (step ev w)) =
       if c || is_detach ev then Null else Current).
Proof.
  intros Hc Hl Hr.
  assert (Q : forall ev', ev' <> Unmount -> ev' <> RefsDetached ->
            console (host (step ev' w)) = console (host w) ++ lines_at l c ev'
            ->
            console (host (step ev' w)) = console (host w) ++ lines_at l c ev'
            /\ resize_listener (host (step ev' w)) = l && true /\
            (l && true = true ->
               mountRef_current (host (step ev' w)) =
                 if c || false then Null else Current)).
  { intros ev' NU ND K. split; [exact K|].
    pose proof (single_step_page_view ev' w NU ND) as V.
    unfold page_view in V. injection V as V1 _ _ V4 _.
    rewrite andb_true_r, orb_false_r. split; [congruence|].
    intro T. rewrite V4. apply Hr. exact T. }
  destruct ev as [|iw ih cw ch|call a|call e| |]; cbn [is_unmount is_detach negb].
  - apply Q; try discriminate. cbn [lines_at lines_of step].
    rewrite (single_frame_keeps (fun w => console (host w)));
      [now rewrite app_nil_r | reflexivity].
  - apply Q; try discriminate.
    destruct l.
    + specialize (Hr eq_refl). revert Hl Hr. open_world w. cbn.
      intros -> ->. destruct c; cbn; now rewrite ?app_nil_r.
    + revert Hl. open_world w. cbn. intros ->. cbn. now rewrite app_nil_r.
  - apply Q; try discriminate. cbn [lines_at lines_of].
    rewrite (single_step_success _ _ _ Hc), app_nil_r.
    destruct call as [|[|[|call]]], a; reflexivity.
  - apply Q; try discriminate. cbn [lines_at lines_of step]. rewrite Hc.
    do 3 (destruct call as [|call]; [open_callbacks; reflexivity|]).
    destruct call; cbn; now rewrite app_nil_r.
  - cbn [lines_at lines_of step]. rewrite app_nil_r, andb_true_r, orb_true_r.
    revert Hl. open_world w. cbn. intros ->. auto.
  - cbn [lines_at lines_of step]. rewrite app_nil_r, andb_false_r.
    split; [|split; [apply single_cleanup_unlistens | discriminate]].
    exact (f_equal snd (proj1 (single_spared_cleanup w))).
Qed.

Lemma single_run_console evs :
  forall (l c : bool) w,
    calls w = mounted_calls ->
    resize_listener (host w) = l ->
    (l = true -> mountRef_current (host w) = if c then Null else Current) ->
    console (host (run evs w)) = console (host w) ++ logged l c evs.
Proof.
  induction evs as [|ev evs IH]; intros l c w Hc Hl Hr.
  - cbn. now rewrite app_nil_r.
  - cbn [run fold_left logged]. fold (run evs (step ev w)).
    destruct (single_step_console l c ev w Hc Hl Hr) as (K & L & R).
    rewrite (IH _ _ (step ev w)
               (eq_trans (single_step_calls ev w) Hc) L R).
    now rewrite K, app_assoc.
Qed.

Lemma single_run_cons ev evs w : run (ev :: evs) w = run evs (step ev w).
Proof. reflexivity. Qed.

Lemma single_step_unmount w : step Unmount w = cleanup w.
Proof. reflexivity. Qed.

(** *** The material *)

Lemma single_step_material ev w :
  calls w = mounted_calls ->
  touches_material ev = false ->
  material (step ev w) = material w.
Proof.
  intros Hc T. destruct ev as [|iw ih cw ch|call a|call e| |];
    try discriminate.
  - cbn [step]. apply single_frame_keeps. reflexivity.
  - open_world w. cbn [step]. open_callbacks. split_ifs; reflexivity.
  - rewrite (single_step_success _ _ _ Hc).
    destruct call as [|[|[|call]]], a; try discriminate; reflexivity.
  - cbn [step]. rewrite Hc.
    destruct call as [|[|[|[|call]]]]; reflexivity.
  - reflexivity.
Qed.

Lemma single_material_texture_onLoad t w :
  material (texture_onLoad t w) =
    mkMaterial (color (material w)) (roughness (material w))
               (metalness (material w)) (Some t) true
               (material_disposed (material w)).
Proof. reflexivity. Qed.

Lemma single_run_material evs :
  Forall (fun ev => touches_material ev = false) evs ->
  forall w, calls w = mounted_calls ->
    material (run evs w) = material w.
Proof.
  induction 1 as [|ev evs T _ IH]; intros w Hc; [reflexivity|].
  cbn [run fold_left]. fold (run evs (step ev w)).
  rewrite IH by (now rewrite single_step_calls).
  now apply single_step_material.
Qed.

(** Deliveries of different loads touch different things. *)
Lemma single_deliver_commute c1 a1 c2 a2 w :
  c1 <> c2 ->
  deliver c1 a1 (deliver c2 a2 w) = deliver c2 a2 (deliver c1 a1 w).
Proof.
  intro N.
  destruct c1 as [|[|[|c1]]], c2 as [|[|[|c2]]]; try congruence;
    destruct a1, a2; reflexivity.
Qed.

Lemma single_calls_deliver c a w : calls (deliver c a w) = calls w.
Proof. destruct c as [|[|[|c]]], a; reflexivity. Qed.

Lemma single_run_successes evs :
  Forall (fun ev => is_success ev = true) evs ->
  forall w, calls w = mounted_calls ->
    calls (run evs w) = mounted_calls.
Proof.
  intros _ w Hc. revert w Hc.
  induction evs as [|ev evs IH]; intros w Hc; [exact Hc|].
  cbn [run fold_left]. apply IH. now rewrite single_step_calls.
Qed.

Lemma single_order_of_successes evs evs' :
  Permutation evs evs' ->
  Forall (fun ev => is_success ev = true) evs ->
  NoDup (flat_map call_of evs) ->
  forall w, calls w = mounted_calls -> run evs w = run evs' w.
Proof.
  induction 1 as [|x l l' P IH|x y l|l l' l'' P1 IH1 P2 IH2];
    intros F N w Hc.
  - reflexivity.
  - cbn [run fold_left]. apply IH.
    + now inversion F.
    + cbn [flat_map] in N. now apply NoDup_app_remove_l in N.
    + now rewrite single_step_calls.
  - cbn [run fold_left]. f_equal.
    inversion F as [|? ? Fy F']; subst. inversion F' as [|? ? Fx _]; subst.
    destruct x as [| |cx ax| | |]; try discriminate.
    destruct y as [| |cy ay| | |]; try discriminate.
    assert (D : cx <> cy).
    { cbn in N. inversion N as [|? ? NI _]; subst.
      intros ->. apply NI. now left. }
    rewrite (single_step_success cx ax w Hc).
    rewrite (single_step_success cy ay w Hc).
    rewrite (single_step_success cx ax (deliver cy ay w))
      by (now rewrite single_calls_deliver).
    rewrite (single_step_success cy ay (deliver cx ax w))
      by (now rewrite single_calls_deliver).
    apply single_deliver_commute. exact D.
  - rewrite (IH1 F N w Hc). apply IH2; [| |exact Hc].
    + eapply Permutation_Forall; eassumption.
    + eapply Permutation_NoDup; [|exact N].
      apply Permutation_flat_map. exact P1.
Qed.

(** *** Sharing the material *)

Lemma single_Object3D_ind (P : Object3D -> Prop) :
  (forall k p t cs, Forall P cs -> P (mkObject3D k p t cs)) ->
  forall o, P o.
Proof.
  intro H. fix IH 1. intros [k p t cs]. apply H.
  induction cs as [|c cs IHcs]; constructor; [apply IH | exact IHcs].
Qed.

Lemma single_share_material_spec o :
  rematerialed o (share_material o) /\
  all_shared (share_material o) = true /\
  (all_shared o = true -> share_material o = o).
Proof.
  induction o as [k p t cs IH] using single_Object3D_ind.
  cbn [share_material all_shared]. split; [|split].
  - constructor.
    + destruct k; cbn; reflexivity.
    + induction IH as [|c cs (R & _) _ IHcs]; constructor; assumption.
  - apply andb_true_iff. split.
    + destruct k; reflexivity.
    + induction IH as [|c cs (_ & A & _) _ IHcs]; [reflexivity|].
      cbn. now rewrite A, IHcs.
  - intro A. apply andb_true_iff in A. destruct A as (Ak & Ac).
    f_equal.
    + destruct k as [| | |g [m|]|]; try reflexivity. discriminate.
    + induction IH as [|c cs (_ & _ & I) _ IHcs]; [reflexivity|].
      cbn in Ac. apply andb_true_iff in Ac. destruct Ac as (A1 & A2).
      cbn. now rewrite (I A1), (IHcs A2).
Qed.

(** *** The resize listener *)

Lemma single_step_unlistening ev w :
  resize_listener (host w) = false ->
  resize_listener (host (step ev w)) = false.
Proof.
  intro L. destruct ev as [|iw ih cw ch|call a|call e| |].
  - pose proof (single_step_page_view AnimationFrame w
                  ltac:(discriminate) ltac:(discriminate)) as V.
    unfold page_view in V. injection V as V1 _ _ _ _.
    exact (eq_trans V1 L).
  - pose proof (single_step_page_view (WindowResize iw ih cw ch) w
                  ltac:(discriminate) ltac:(discriminate)) as V.
    unfold page_view in V. injection V as V1 _ _ _ _.
    exact (eq_trans V1 L).
  - pose proof (single_step_page_view (LoadSucceeded call a) w
                  ltac:(discriminate) ltac:(discriminate)) as V.
    unfold page_view in V. injection V as V1 _ _ _ _.
    exact (eq_trans V1 L).
  - pose proof (single_step_page_view (LoadFailed call e) w
                  ltac:(discriminate) ltac:(discriminate)) as V.
    unfold page_view in V. injection V as V1 _ _ _ _.
    exact (eq_trans V1 L).
  - exact L.
  - apply single_cleanup_unlistens.
Qed.

Lemma single_run_unlistening evs w0 :
  In Unmount evs -> resize_listener (host (run evs w0)) = false.
Proof.
  induction evs as [|ev evs IH] using rev_ind; [intros []|].
  intro I. rewrite single_run_snoc. apply in_app_or in I.
  destruct I as [I|[->|[]]].
  - apply single_step_unlistening, IH, I.
  - apply single_cleanup_unlistens.
Qed.

Lemma single_resize_heard iw ih cw ch w :
  resize_listener (host w) = true ->
  mountRef_current (host w) = Current ->
  camera (step (WindowResize iw ih cw ch) w) =
    mkCamera (fov (camera w)) (ratio cw ch) (near (camera w))
             (far (camera w)) (camera_position (camera w))
             (S (projection_updates (camera w))) /\
  renderer (step (WindowResize iw ih cw ch) w) = setSize cw ch (renderer w).
Proof.
  open_world w. cbn. intros -> ->. split; reflexivity.
Qed.

Lemma single_resize_unheard iw ih cw ch w :
  resize_listener (host w) = false ->
  camera (step (WindowResize iw ih cw ch) w) = camera w /\
  renderer (step (WindowResize iw ih cw ch) w) = renderer w.
Proof.
  open_world w. cbn. intros ->. split; reflexivity.
Qed.

(** *** The work of a frame *)

Lemma single_step_balanced ev w : balanced (step ev w) = balanced w.
Proof.
  destruct ev as [|iw ih cw ch|call a|call e'| |].
  - cbn [step]. apply single_frame_keeps. intros k w'. open_world w'.
    reflexivity.
  - open_world w. cbn [step]. open_callbacks. split_ifs; reflexivity.
  - open_world w. cbn [step calls].
    destruct (nth_error cs call) as [c|]; [|reflexivity].
    destruct (onLoad c) as [cb|]; [|reflexivity].
    destruct cb, a; open_callbacks; reflexivity.
  - open_world w. cbn [step calls].
    destruct (nth_error cs call) as [c|]; [|reflexivity].
    destruct (onError c) as [cb|]; [|reflexivity].
    destruct cb; open_callbacks; reflexivity.
  - reflexivity.
  - cbn [step]. apply single_spared_cleanup.
Qed.

Lemma single_run_balanced h w0 :
  effect h = Some w0 -> forall evs, balanced (run evs w0) = true.
Proof.
  intros E evs. induction evs as [|ev evs IH] using rev_ind.
  - revert E. unfold effect.
    destruct (mountRef_current h), (statsRef_current h); try discriminate.
    intro E. injection E as <-. reflexivity.
  - now rewrite single_run_snoc, single_step_balanced.
Qed.

(** *** Mounting again *)

Lemma single_remount h w0 :
  host_ok h -> effect h = Some w0 ->
  forall pre, ~ In Unmount pre -> detached pre = false ->
    host_ok (host (run (pre ++ [Unmount]) w0)) /\
    exists w1,
      effect (host (run (pre ++ [Unmount]) w0)) = Some w1 /\
      constructed (host (run (pre ++ [Unmount]) w0)) w1 /\
      cleanup_tears_down w1.
Proof.
  intros Hh E pre NU D.
  destruct (single_lifecycle _ _ Hh E) as (_ & T).
  destruct (T pre NU) as (_ & P & _).
  destruct (single_run_looping _ _ Hh E pre NU) as ((Hpos & _) & _).
  pose proof (single_run_page_view _ _ E pre NU) as V. unfold page_view in V.
  injection V as _ _ _ RM RS. unfold ref_after in RM, RS.
  rewrite D in RM, RS.
  assert (S : spared (run pre w0) (run (pre ++ [Unmount]) w0)).
  { rewrite single_run_snoc. apply single_spared_cleanup. }
  destruct S as (_ & _ & _ & _ & Sc & Sm & Ss & _).
  assert (Ok : host_ok (host (run (pre ++ [Unmount]) w0))).
  { split; [exact P|]. rewrite Sc. lia. }
  split; [exact Ok|].
  destruct (effect (host (run (pre ++ [Unmount]) w0))) as [w1|] eqn:E1.
  - exists w1. split; [reflexivity|]. apply (single_lifecycle _ _ Ok E1).
  - apply single_effect_guard in E1. destruct E1 as [N|N]; congruence.
Qed.

(** *** Disposal *)

Lemma single_material_before_dispose w :
  material (remove_stats (remove_renderer (cancel_frame (stop_listening w))))
    = material w /\
  calls (remove_stats (remove_renderer (cancel_frame (stop_listening w))))
    = calls w.
Proof.
  assert (K : forall f : World -> World,
            (forall x, material (f x) = material x /\ calls (f x) = calls x) ->
            forall x y, material x = material y /\ calls x = calls y ->
              material (f x) = material y /\ calls (f x) = calls y).
  { intros f Hf x y (A & B). destruct (Hf x) as (C & D).
    split; congruence. }
  apply (K remove_stats).
  { intro x. open_world x. unfold remove_stats. cbn. split_ifs; auto. }
  apply (K remove_renderer).
  { intro x. open_world x. unfold remove_renderer. cbn. split_ifs; auto. }
  apply (K cancel_frame).
  { intro x. open_world x. unfold cancel_frame. cbn. split_ifs; auto. }
  apply (K stop_listening).
  { intro x. open_world x. unfold stop_listening. cbn. auto. }
  auto.
Qed.

Lemma single_cleanup_disposes w :
  material (cleanup w) =
    mkMaterial (color (material w)) (roughness (material w))
               (metalness (material w))
               (option_map texture_dispose (map (material w)))
               (needsUpdate (material w)) true /\
  planeGeometry_disposed (cleanup w) = true /\
  calls (cleanup w) = calls w.
Proof.
  unfold cleanup.
  destruct (single_material_before_dispose w) as (M & C).
  generalize dependent
    (remove_stats (remove_renderer (cancel_frame (stop_listening w)))).
  intros x M C. rewrite <- M, <- C. open_world x.
  unfold dispose_resources. cbn. destruct ma as [c r m [t|] u d]; cbn;
    repeat split; reflexivity.
Qed.

End SingleMore.

Section SingleExtras.
Import Three Host LoadingAssets SingleFacts SingleMore.

(** [share_material], what the GLTF success callback of [LoadingAssets]
    does to the loaded tree through [traverse]: it changes nothing but the
    materials of meshes (positions, turns, geometries, other kinds and the
    children stay, node by node), afterwards every mesh at every depth uses
    the shared material, and a tree that already does is left as it is (so
    applying it twice is the same as once). *)
Theorem share_material_changes_only_materials :
  forall o,
    rematerialed o (share_material o) /\
    all_shared (share_material o) = true /\
    (all_shared o = true -> share_material o = o) /\
    share_material (share_material o) = share_material o.
Proof.
  intro o. destruct (single_share_material_spec o) as (R & A & I).
  repeat split; try assumption.
  apply (proj2 (proj2 (single_share_material_spec (share_material o)))).
  exact A.
Qed.

(** The scene of [LoadingAssets] holds the plane and the two lights of
    the mount effect, followed by one tree per successful model load, in
    arrival order, each with its meshes switched to the shared material.
    Nothing is ever removed, and at every moment every mesh in the scene
    uses the one shared material, so a texture that arrives before or after
    the model shows on all of them. *)
Theorem single_scene_shares_one_material :
  forall h w0, effect h = Some w0 ->
  forall pre post,
    scene_children (scene (run pre w0)) =
      initial_objects ++ flat_map added_by pre /\
    scene_children (scene (run (pre ++ post) w0)) =
      scene_children (scene (run pre w0)) ++ flat_map added_by post /\
    Forall (fun o => all_shared o = true)
           (scene_children (scene (run pre w0))).
Proof.
  intros h w0 E pre post.
  pose proof (single_run_scene _ _ E pre) as S1.
  pose proof (single_run_scene _ _ E (pre ++ post)) as S2.
  split; [exact S1|]. split.
  - now rewrite S2, S1, flat_map_app, app_assoc.
  - rewrite S1. apply Forall_app. split.
    + repeat constructor.
    + apply Forall_flat_map. apply Forall_forall. intros ev _.
      destruct ev as [| |call a| | |]; try constructor.
      destruct a as [t|g]; try constructor.
      destruct call as [|[|[|call]]]; cbn [added_by]; repeat constructor.
      apply (single_share_material_spec (gltf_scene g)).
Qed.

Lemma single_scene_shares_one_material_witness :
  exists w0, effect Sample.page = Some w0 /\
    scene_children
      (scene (run [LoadFailed 0 "404";
                   LoadSucceeded 2 (GltfAsset Sample.suv); Unmount] w0)) =
      initial_objects ++ [share_material (gltf_scene Sample.suv)].
Proof.
  eexists. split; [reflexivity|].
  exact (proj1 (single_scene_shares_one_material Sample.page _ eq_refl
                  [LoadFailed 0 "404";
                   LoadSucceeded 2 (GltfAsset Sample.suv); Unmount] [])).
Defined.

(** The console of [LoadingAssets] receives, in arrival order, exactly one
    error line per failed load (HDR, texture or model) and one report of an
    uncaught TypeError per window resize that arrives while the listener
    is still registered and React has already cleared the mount ref
    ([handleResize] then reads [mountRef.current!.clientWidth] of null);
    nothing else is written: successful loads, frames, other resizes and
    the cleanup are silent. *)
Theorem single_console_has_one_entry_per_failure :
  forall h w0, effect h = Some w0 ->
  forall evs,
    console (host (run evs w0)) = console h ++ logged true false evs.
Proof.
  intros h w0 E evs.
  pose proof (single_run_page_view _ _ E [] (fun x => x)) as V.
  unfold page_view in V. cbn [run fold_left] in V.
  injection V as V1 _ _ V4 _.
  rewrite (single_run_console evs true false w0
             (single_run_calls _ _ E []) V1 (fun _ => V4)).
  f_equal. exact (f_equal snd (single_effect_marks _ _ E)).
Qed.

Lemma single_console_has_one_entry_per_failure_witness :
  exists w0, effect Sample.page = Some w0 /\
    console (host (run [LoadSucceeded 0 (TextureAsset Sample.sunset);
                        WindowResize 800 600 640 480;
                        LoadFailed 2 "404"; AnimationFrame;
                        RefsDetached; WindowResize 400 300 320 240;
                        Unmount; WindowResize 800 600 640 480;
                        LoadFailed 1 "timeout"] w0)) =
      [ line ErrorLevel "Error loading model:" (Some "404");
        line UncaughtLevel "TypeError" None;
        line ErrorLevel "Error loading texture:" (Some "timeout") ].
Proof.
  eexists. split; [reflexivity|].
  exact (single_console_has_one_entry_per_failure Sample.page _ eq_refl
           [LoadSucceeded 0 (TextureAsset Sample.sunset);
            WindowResize 800 600 640 480;
            LoadFailed 2 "404"; AnimationFrame;
            RefsDetached; WindowResize 400 300 320 240;
            Unmount; WindowResize 800 600 640 480;
            LoadFailed 1 "timeout"]).
Defined.

(** In [LoadingAssets] the order in which successful loads arrive does not
    matter: from any moment on, two orders of the same deliveries (each
    load delivering at most once) lead to the same world. *)
Theorem single_success_order_is_irrelevant :
  forall h w0, effect h = Some w0 ->
  forall pre evs evs',
    Forall (fun ev => is_success ev = true) evs ->
    NoDup (flat_map call_of evs) ->
    Permutation evs evs' ->
    run evs (run pre w0) = run evs' (run pre w0).
Proof.
  intros h w0 E pre evs evs' F N P.
  apply (single_order_of_successes evs evs' P F N).
  apply (single_run_calls _ _ E).
Qed.

Lemma single_success_order_is_irrelevant_witness :
  exists w0, effect Sample.page = Some w0 /\
    run [LoadSucceeded 1 (TextureAsset Sample.sunset);
         LoadSucceeded 0 (TextureAsset Sample.sunset);
         LoadSucceeded 2 (GltfAsset Sample.suv)] w0 =
    run [LoadSucceeded 2 (GltfAsset Sample.suv);
         LoadSucceeded 1 (TextureAsset Sample.sunset);
         LoadSucceeded 0 (TextureAsset Sample.sunset)] w0.
Proof.
  eexists. split; [reflexivity|].
  apply (single_success_order_is_irrelevant Sample.page _ eq_refl []).
  - repeat constructor.
  - cbn. repeat constructor; cbn; intuition discriminate.
  - apply Permutation_sym.
    apply (Permutation_cons_app
             [LoadSucceeded 1 (TextureAsset Sample.sunset);
              LoadSucceeded 0 (TextureAsset Sample.sunset)] []).
    rewrite app_nil_r. apply Permutation_refl.
Defined.

(** The cleanup of [LoadingAssets] disposes the shared material and the
    plane geometry, and the texture of the material if one has arrived by
    then. A texture that arrives after the cleanup is still attached to the
    (disposed) material and stays there undisposed, as delivered, through
    everything that happens afterwards (frames, resizes, the other loads
    settling, the refs being cleared), the cleanup having run and the
    texture load delivering once. *)
Theorem single_cleanup_disposes_what_has_arrived :
  forall h w0, effect h = Some w0 ->
  forall pre texture post,
    Forall (fun ev => touches_material ev = false) post ->
    material_disposed (material (run (pre ++ [Unmount]) w0)) = true /\
    planeGeometry_disposed (run (pre ++ [Unmount]) w0) = true /\
    map (material (run (pre ++ [Unmount]) w0)) =
      option_map texture_dispose (map (material (run pre w0))) /\
    map (material
           (run (pre ++ Unmount ::
                 LoadSucceeded 1 (TextureAsset texture) :: post) w0)) =
      Some texture /\
    material_disposed
      (material
         (run (pre ++ Unmount ::
               LoadSucceeded 1 (TextureAsset texture) :: post) w0)) = true.
Proof.
  intros h w0 E pre texture post F.
  rewrite single_run_snoc, single_run_app, !single_run_cons.
  rewrite !single_step_unmount.
  destruct (single_cleanup_disposes (run pre w0)) as (M & G & C).
  assert (Hc : calls (cleanup (run pre w0)) = mounted_calls)
    by (rewrite C; apply (single_run_calls _ _ E)).
  rewrite (single_run_material post F)
    by (now rewrite single_step_calls).
  rewrite (single_step_success _ _ _ Hc).
  change (deliver 1 (TextureAsset texture) (cleanup (run pre w0)))
    with (texture_onLoad texture (cleanup (run pre w0))).
  rewrite single_material_texture_onLoad, M.
  clear M C Hc. revert G.
  generalize (cleanup (run pre w0)) as w1.
  generalize (material (run pre w0)) as m.
  intros m w1 G.
  cbn [map material_disposed]. repeat split; try reflexivity. exact G.
Qed.

Lemma single_cleanup_disposes_what_has_arrived_witness :
  exists w0, effect Sample.page = Some w0 /\
    map (material
           (run ([LoadSucceeded 1 (TextureAsset Sample.sunset)] ++ [Unmount])
                w0)) =
      Some (texture_dispose Sample.sunset) /\
    map (material
           (run ([AnimationFrame] ++ Unmount ::
                 LoadSucceeded 1 (TextureAsset Sample.sunset) ::
                 [AnimationFrame; LoadSucceeded 2 (GltfAsset Sample.suv);
                  WindowResize 800 600 640 480; RefsDetached]) w0)) =
      Some Sample.sunset.
Proof.
  eexists. split; [reflexivity|]. split.
  - exact (proj1 (proj2 (proj2
      (single_cleanup_disposes_what_has_arrived Sample.page _ eq_refl
         [LoadSucceeded 1 (TextureAsset Sample.sunset)] Sample.sunset []
         (Forall_nil _))))).
  - refine (proj1 (proj2 (proj2 (proj2
      (single_cleanup_disposes_what_has_arrived Sample.page _ eq_refl
         [AnimationFrame] Sample.sunset
         [AnimationFrame; LoadSucceeded 2 (GltfAsset Sample.suv);
          WindowResize 800 600 640 480; RefsDetached] _))))).
    repeat constructor.
Defined.

(** In [LoadingAssets] a window resize, while the listener is registered
    and the mount ref is set, sets the camera's aspect to the client width
    over the client height of the mount container, updates the projection
    matrix once and resizes the renderer to that client size; after the
    cleanup a resize changes neither the camera nor the renderer. *)
Theorem single_resize_follows_the_container :
  forall h w0, effect h = Some w0 ->
  forall pre iw ih cw ch,
    (~ In Unmount pre -> detached pre = false ->
       camera (step (WindowResize iw ih cw ch) (run pre w0)) =
         mkCamera (fov (camera (run pre w0))) (ratio cw ch)
                  (near (camera (run pre w0))) (far (camera (run pre w0)))
                  (camera_position (camera (run pre w0)))
                  (S (projection_updates (camera (run pre w0)))) /\
       renderer (step (WindowResize iw ih cw ch) (run pre w0)) =
         setSize cw ch (renderer (run pre w0))) /\
    (In Unmount pre ->
       camera (step (WindowResize iw ih cw ch) (run pre w0)) =
         camera (run pre w0) /\
       renderer (step (WindowResize iw ih cw ch) (run pre w0)) =
         renderer (run pre w0)).
Proof.
  intros h w0 E pre iw ih cw ch. split.
  - intros U D.
    pose proof (single_run_page_view _ _ E pre U) as V.
    apply single_resize_heard.
    + exact (f_equal (fun v => fst (fst (fst (fst v)))) V).
    + pose proof (f_equal (fun v => snd (fst v)) V) as R.
      cbn [page_view fst snd] in R. unfold ref_after in R.
      now rewrite D in R.
  - intro U. apply single_resize_unheard. now apply single_run_unlistening.
Qed.

Lemma single_resize_follows_the_container_witness :
  exists w0, effect Sample.page = Some w0 /\
    size (renderer (step (WindowResize 800 600 640 480)
                         (run [AnimationFrame] w0))) = (640, 480) /\
    size (renderer (step (WindowResize 800 600 640 480)
                         (run [AnimationFrame; Unmount] w0))) = (1024, 648).
Proof.
  eexists. split; [reflexivity|].
  split.
  - refine (f_equal size
              (proj2 (proj1 (single_resize_follows_the_container
                               Sample.page _ eq_refl [AnimationFrame]
                               800 600 640 480) _ eq_refl))).
    cbn. intros [H|[]]. discriminate H.
  - refine (f_equal size
              (proj2 (proj2 (single_resize_follows_the_container
                               Sample.page _ eq_refl [AnimationFrame; Unmount]
                               800 600 640 480) _))).
    cbn. right. left. reflexivity.
Defined.

End SingleExtras.

Section ViewerExtras.
Import Three Host.

(** In both viewer components, as long as the user does not operate the
    controls, [controls.update()], [renderer.render()] and [stats.update()]
    are called together by [animate] and by nothing else of the component:
    at every moment, before and after the cleanup, the stats have been
    updated exactly as often as the scene has been rendered, and the
    controls exactly once more (the update their constructor makes). *)
Theorem frame_work_stays_in_step :
  forall h,
    (forall w0, LoadingMultipleAssets.effect h = Some w0 ->
       forall evs,
         control_updates
           (LoadingMultipleAssets.controls
              (LoadingMultipleAssets.run evs w0)) =
         S (frames_rendered
              (LoadingMultipleAssets.renderer
                 (LoadingMultipleAssets.run evs w0))) /\
         stats_updates
           (LoadingMultipleAssets.stats
              (LoadingMultipleAssets.run evs w0)) =
         frames_rendered
           (LoadingMultipleAssets.renderer
              (LoadingMultipleAssets.run evs w0))) /\
    (forall w0, LoadingAssets.effect h = Some w0 ->
       forall evs,
         control_updates
           (LoadingAssets.controls (LoadingAssets.run evs w0)) =
         S (frames_rendered
              (LoadingAssets.renderer (LoadingAssets.run evs w0))) /\
         stats_updates (LoadingAssets.stats (LoadingAssets.run evs w0)) =
         frames_rendered
           (LoadingAssets.renderer (LoadingAssets.run evs w0))).
Proof.
  intro h. split; intros w0 E evs.
  - pose proof (MultipleMore.multi_run_balanced _ _ E evs) as B.
    unfold LoadingMultipleAssets.balanced in B.
    apply andb_true_iff in B. destruct B as (B1 & B2).
    split; now apply Nat.eqb_eq.
  - pose proof (SingleMore.single_run_balanced _ _ E evs) as B.
    unfold LoadingAssets.balanced in B.
    apply andb_true_iff in B. destruct B as (B1 & B2).
    split; now apply Nat.eqb_eq.
Qed.

(** Mount and two frames: three renders, four updates of the controls;
    mount and one frame: two renders, three updates. *)
Lemma frame_work_stays_in_step_witness :
  (exists w0, LoadingMultipleAssets.effect Sample.page = Some w0 /\
     control_updates
       (LoadingMultipleAssets.controls
          (LoadingMultipleAssets.run
             [LoadingMultipleAssets.AnimationFrame;
              LoadingMultipleAssets.AnimationFrame] w0)) = 4%nat /\
     frames_rendered
       (LoadingMultipleAssets.renderer
          (LoadingMultipleAssets.run
             [LoadingMultipleAssets.AnimationFrame;
              LoadingMultipleAssets.AnimationFrame] w0)) = 3%nat) /\
  (exists w0, LoadingAssets.effect Sample.page = Some w0 /\
     control_updates
       (LoadingAssets.controls
          (LoadingAssets.run [LoadingAssets.AnimationFrame] w0)) = 3%nat /\
     frames_rendered
       (LoadingAssets.renderer
          (LoadingAssets.run [LoadingAssets.AnimationFrame] w0)) = 2%nat).
Proof.
  split; eexists; (split; [reflexivity|]).
  - split; [|reflexivity].
    exact (proj1 (proj1 (frame_work_stays_in_step Sample.page) _ eq_refl
                    [LoadingMultipleAssets.AnimationFrame;
                     LoadingMultipleAssets.AnimationFrame])).
  - split; [|reflexivity].
    exact (proj1 (proj2 (frame_work_stays_in_step Sample.page) _ eq_refl
                    [LoadingAssets.AnimationFrame])).
Defined.

(** After a cleanup that ran while the refs were still set, either viewer
    component can be mounted again on the page it left: no frame request is
    left over, the mount effect runs to its end, the containers hold
    exactly the new canvas and the new stats node, all loads are issued
    again, a new render loop is running, and the new cleanup tears it down
    in turn. *)
Theorem viewer_can_be_mounted_again :
  forall h, host_ok h ->
    (forall w0, LoadingMultipleAssets.effect h = Some w0 ->
       forall pre,
         ~ In LoadingMultipleAssets.Unmount pre ->
         LoadingMultipleAssets.detached pre = false ->
         host_ok (LoadingMultipleAssets.host
                    (LoadingMultipleAssets.run
                       (pre ++ [LoadingMultipleAssets.Unmount]) w0)) /\
         exists w1,
           LoadingMultipleAssets.effect
             (LoadingMultipleAssets.host
                (LoadingMultipleAssets.run
                   (pre ++ [LoadingMultipleAssets.Unmount]) w0)) = Some w1 /\
           LoadingMultipleAssets.constructed
             (LoadingMultipleAssets.host
                (LoadingMultipleAssets.run
                   (pre ++ [LoadingMultipleAssets.Unmount]) w0)) w1 /\
           LoadingMultipleAssets.cleanup_tears_down w1) /\
    (forall w0, LoadingAssets.effect h = Some w0 ->
       forall pre,
         ~ In LoadingAssets.Unmount pre ->
         LoadingAssets.detached pre = false ->
         host_ok (LoadingAssets.host
                    (LoadingAssets.run (pre ++ [LoadingAssets.Unmount]) w0)) /\
         exists w1,
           LoadingAssets.effect
             (LoadingAssets.host
                (LoadingAssets.run (pre ++ [LoadingAssets.Unmount]) w0)) =
             Some w1 /\
           LoadingAssets.constructed
             (LoadingAssets.host
                (LoadingAssets.run (pre ++ [LoadingAssets.Unmount]) w0)) w1 /\
           LoadingAssets.cleanup_tears_down w1).
Proof.
  intros h Hh. split; intros w0 E pre NU D.
  - exact (MultipleMore.multi_remount h w0 Hh E pre NU D).
  - exact (SingleMore.single_remount h w0 Hh E pre NU D).
Qed.

Lemma viewer_can_be_mounted_again_witness :
  (exists w0, LoadingMultipleAssets.effect Sample.page = Some w0 /\
     host_ok (LoadingMultipleAssets.host
                (LoadingMultipleAssets.run
                   ([LoadingMultipleAssets.AnimationFrame] ++
                    [LoadingMultipleAssets.Unmount]) w0))) /\
  (exists w0, LoadingAssets.effect Sample.page = Some w0 /\
     host_ok (LoadingAssets.host
                (LoadingAssets.run
                   ([LoadingAssets.AnimationFrame] ++
                    [LoadingAssets.Unmount]) w0))).
Proof.
  split; eexists; (split; [reflexivity|]).
  - refine (proj1 (proj1 (viewer_can_be_mounted_again Sample.page
                            sample_page_ok) _ eq_refl
                     [LoadingMultipleAssets.AnimationFrame] _ eq_refl)).
    cbn. intros [H|[]]. discriminate H.
  - refine (proj1 (proj2 (viewer_can_be_mounted_again Sample.page
                            sample_page_ok) _ eq_refl
                     [LoadingAssets.AnimationFrame] _ eq_refl)).
    cbn. intros [H|[]]. discriminate H.
Defined.

End ViewerExtras.
